(** * Annotated data matrices

    A shallow embedding of [scanpy/ann_data.py]: the record array bound to
    its owner ([BoundRecArr]), the annotated container ([AnnData]) and the
    operations on them, followed by the properties the specification
    states about them.

    Conventions of the embedding.
    - Tables and containers are mutated through references, so they live
      in a [heap].  A method takes the heap and returns [Ok] with the new
      heap or [Raise] with the exception.  The methods written this way
      raise before their first write to a reachable object, so that an
      exception leaves the heap as it was.  Two places edit a mapping
      before they can fail: the constructor edits the legacy bundle, and
      returns it next to its result; indexing and transposition pass the
      metadata on as keywords, and return the heap on both exits.
    - A numpy array is its [shape] and its row-major buffer of cells.  It
      is held by value: that a slice may share its cells with the matrix
      it was taken from is not modelled, and no statement depends on it.
      Indexing follows [numpy.ndarray] for the three representations.
    - Matrix cells, labels and annotations are [int64] values ([Z]); a
      list or 1-D array of them is a [column].
    - A [dict] is an association list in insertion order. *)

From Stdlib Require Import ZArith String List DecimalString Lia.
From stdpp Require Import base list strings.

Local Open Scope string_scope.
Local Open Scope list_scope.

(** ** Exceptions and results *)

Inductive exn :=
| ValueError (msg : string)
| TypeError (msg : string)
| IndexError (msg : string)
| KeyError (key : string)
| AttributeError (msg : string)
| AssertionError.

Inductive result (A : Type) :=
| Ok (a : A)
| Raise (e : exn).
Arguments Ok {A} a.
Arguments Raise {A} e.

#[global] Instance result_ret : MRet result := fun A a => Ok a.
#[global] Instance result_bind : MBind result :=
  fun A B f m => match m with Ok a => f a | Raise e => Raise e end.

Definition is_ok {A} (r : result A) : bool :=
  match r with Ok _ => true | Raise _ => false end.

(** [str.format] of a length. *)
Definition show_nat (n : nat) : string :=
  NilEmpty.string_of_uint (Nat.to_uint n).

(** ** Dictionaries *)

Section dict.
Context {V : Type}.

Fixpoint dict_get (k : string) (d : list (string * V)) : option V :=
  match d with
  | [] => None
  | (k', v) :: d' => if k =? k' then Some v else dict_get k d'
  end.

Definition dict_mem (k : string) (d : list (string * V)) : bool :=
  match dict_get k d with Some _ => true | None => false end.

(** [d[k] = v]: an existing key keeps its place, a new one goes last. *)
Fixpoint dict_set (k : string) (v : V) (d : list (string * V))
  : list (string * V) :=
  match d with
  | [] => [(k, v)]
  | (k', v') :: d' =>
      if k =? k' then (k, v) :: d' else (k', v') :: dict_set k v d'
  end.

(** [del d[k]] *)
Fixpoint dict_del (k : string) (d : list (string * V))
  : list (string * V) :=
  match d with
  | [] => []
  | (k', v') :: d' =>
      if k =? k' then dict_del k d' else (k', v') :: dict_del k d'
  end.

Definition dict_keys (d : list (string * V)) : list string := d.*1.
End dict.

Fixpoint has_dup (l : list string) : bool :=
  match l with
  | [] => false
  | x :: l' => existsb (String.eqb x) l' || has_dup l'
  end.

(** ** Arrays *)

Abbreviation column := (list Z).

(** [np.arange(n)] *)
Definition arange (n : nat) : column := map Z.of_nat (seq 0 n).

Definition column_eqb (a b : column) : bool :=
  bool_decide (a = b).

Inductive StorageType := Array | Masked | Sparse.

(** [np.ndarray], [ma.MaskedArray] or [sp.spmatrix]: [dtype_names] says
    whether the dtype is structured ([X.dtype.names is not None]). *)
Record ndarray := {
  kind : StorageType;
  dtype_names : bool;
  shape : list nat;
  data : list Z
}.

(** [a.shape[i]] *)
Definition shape_at (a : ndarray) (i : nat) : result nat :=
  match shape a !! i with
  | Some n => Ok n
  | None => Raise (IndexError "tuple index out of range")
  end.

(** A record array: [rec_len] rows, named columns in dtype order. *)
Record recarray := {
  rec_len : nat;
  fields : list (string * column)
}.

Definition rec_names (r : recarray) : list string := dict_keys (fields r).

(** Assignment to a whole field broadcasts a length-1 value. *)
Definition broadcast_to (n : nat) (c : column) : result column :=
  if (length c =? n)%nat then Ok c
  else match c with
       | [x] => Ok (replicate n x)
       | _ => Raise (ValueError ("could not broadcast input array from shape ("
                +:+ show_nat (length c) +:+ ",) into shape ("
                +:+ show_nat n +:+ ",)"))
       end.

(** [r[key]] for a field name *)
Definition rec_getfield (r : recarray) (key : string) : result column :=
  match dict_get key (fields r) with
  | Some c => Ok c
  | None => Raise (ValueError ("no field of name " +:+ key))
  end.

(** [np.recarray.__setitem__(r, key, value)] for a field name: writes the
    column in place, and refuses a name that is not a field. *)
Definition rec_setfield (r : recarray) (key : string) (value : column)
  : result recarray :=
  if dict_mem key (fields r) then
    v ← broadcast_to (rec_len r) value;
    Ok {| rec_len := rec_len r; fields := dict_set key v (fields r) |}
  else Raise (ValueError ("no field of name " +:+ key)).

(** [numpy.ma.default_fill_value] at [int64]. *)
Definition default_fill_value : Z := 999999.

(** [append_fields(base, [key], [value], usemask=False, asrecarray=True)]:
    the output has [max(len(base), len(value))] rows, short columns are
    padded with the fill value. *)
Definition pad_to (n : nat) (c : column) : column :=
  c ++ replicate (n - length c) default_fill_value.

Definition append_fields (base : recarray) (key : string) (value : column)
  : recarray :=
  let n := Nat.max (rec_len base) (length value) in
  {| rec_len := n;
     fields := map (fun kv => (kv.1, pad_to n kv.2)) (fields base)
               ++ [(key, pad_to n value)] |}.

(** ** The heap *)

Abbreviation addr := nat.

Definition SMP_NAMES : string := "smp_names".
Definition VAR_NAMES : string := "var_names".

(** A [BoundRecArr] object: the record array and the two attributes
    [__new__] attaches to it. *)
Record BoundRecArr := {
  arr : recarray;
  _parent : option addr;
  _name_col : string
}.

Inductive pyobj :=
| ONone
| OInt (z : Z)
| OStr (s : string)
| OList (c : column)
| OArray (a : ndarray)
| ODict (m : list (string * column)).

Abbreviation visdict := (list (string * list string)).

Record AnnData := {
  storage_type : StorageType;
  X : ndarray;
  smp : addr;
  var : addr;
  vis : visdict;
  _meta : list (string * pyobj)
}.

Record heap := {
  tables : list BoundRecArr;
  objs : list AnnData
}.

Definition empty_heap : heap := {| tables := []; objs := [] |}.

Definition get_table (h : heap) (t : addr) : result BoundRecArr :=
  match tables h !! t with
  | Some b => Ok b
  | None => Raise (AttributeError "no such table")
  end.

Definition get_obj (h : heap) (a : addr) : result AnnData :=
  match objs h !! a with
  | Some c => Ok c
  | None => Raise (AttributeError "no such container")
  end.

Definition alloc_table (h : heap) (b : BoundRecArr) : heap * addr :=
  ({| tables := tables h ++ [b]; objs := objs h |}, length (tables h)).

Definition set_table (h : heap) (t : addr) (b : BoundRecArr) : heap :=
  {| tables := <[t := b]> (tables h); objs := objs h |}.

Definition set_obj (h : heap) (a : addr) (c : AnnData) : heap :=
  {| tables := tables h; objs := <[a := c]> (objs h) |}.

(** ** BoundRecArr *)

(** What [BoundRecArr.__new__] receives as [source]: [None], a record
    array of rank one, a mapping from names to sequences, a record array
    of another rank (its columns have no length, or do not fit the rows),
    or an object of any other type. *)
Inductive source :=
| SrcNone
| SrcRec (r : recarray)
| SrcMap (m : list (string * column))
| SrcRecNd (rank : nat)
| SrcOther (type_name : string).

(** Lines 60-61: [arr[name] = np.array(cols[i])] for every name.  The
    write goes through [BoundRecArr.__setitem__], whose first branch is
    closed because [name] is a field. *)
Fixpoint fill_fields (a : recarray) (cols : list (string * column))
  : result recarray :=
  match cols with
  | [] => Ok a
  | (name, c) :: rest => a' ← rec_setfield a name c; fill_fields a' rest
  end.

(** Lines 31-48: the names and columns [__new__] takes from its source.
    The dtype of line 50 refuses a name that occurs twice. *)
Definition source_cols (src : source) (name_col : string)
    (nr_row : option nat) : result (list (string * column)) :=
  match src with
  | SrcNone =>
      match nr_row with
      | Some n => Ok [(name_col, arange n)]
      | None => Raise (TypeError "unsupported operand type(s)")
      end
  | SrcRec r => Ok (fields r)
  | SrcRecNd 0 => Raise (TypeError "len() of unsized object")
  | SrcRecNd _ => Raise (ValueError "could not broadcast input array")
  | SrcOther tp =>
      Raise (ValueError ("meta needs to be a recarray or dictlike, not " +:+ tp))
  | SrcMap m =>
      if dict_mem name_col m then Ok m
      else match m with
           | [] => Raise (IndexError "list index out of range")
           | (_, c0) :: _ => Ok (m ++ [(name_col, arange (length c0))])
           end
  end.

Definition BoundRecArr_new (src : source) (name_col : string)
    (parent : option addr) (nr_row : option nat) : result BoundRecArr :=
  cols ← source_cols src name_col nr_row;
  if has_dup (dict_keys cols)
  then Raise (ValueError "field occurs more than once")
  else
    match cols with
    | [] => Raise (IndexError "list index out of range")
    | (_, c0) :: _ =>
        let n := length c0 in
        let blank := {| rec_len := n;
                        fields := map (fun kv => (kv.1, replicate n 0%Z)) cols |} in
        a ← fill_fields blank cols;
        Ok {| arr := a; _parent := parent; _name_col := name_col |}
    end.

(** [BoundRecArr.columns] *)
Definition columns (b : BoundRecArr) : list string :=
  List.filter (fun c => negb (c =? _name_col b)) (rec_names (arr b)).

(** ** AnnData: attribute assignment and column writes *)

(** The two attributes [__setattr__] intercepts: the keys ['smp'] and
    ['var'] of [dict(smp=SMP_NAMES, var=VAR_NAMES)]. *)
Inductive axis := AxSmp | AxVar.

Definition attr_name (ax : axis) : string :=
  match ax with AxSmp => "smp" | AxVar => "var" end.

Definition names_col_of (ax : axis) : string :=
  match ax with AxSmp => SMP_NAMES | AxVar => VAR_NAMES end.

Definition dim_of (ax : axis) : nat :=
  match ax with AxSmp => 0 | AxVar => 1 end.

Definition axis_table (ax : axis) (c : AnnData) : addr :=
  match ax with AxSmp => smp c | AxVar => var c end.

Definition with_axis_table (ax : axis) (t : addr) (c : AnnData) : AnnData :=
  match ax with
  | AxSmp => {| storage_type := storage_type c; X := X c; smp := t;
                var := var c; vis := vis c; _meta := _meta c |}
  | AxVar => {| storage_type := storage_type c; X := X c; smp := smp c;
                var := t; vis := vis c; _meta := _meta c |}
  end.

(** [len(adata)], which is also its truth value. *)
Definition AnnData_len (c : AnnData) : result nat := shape_at (X c) 0.

(** The value assigned to ['smp'] or ['var']: an object that is already a
    [BoundRecArr] (a table of the heap), or anything else. *)
Inductive attrval :=
| Bound (t : addr)
| Raw (src : source).

(** [len(value_orig)] *)
Definition source_len (src : source) : result nat :=
  match src with
  | SrcRec r => Ok (rec_len r)
  | SrcMap m => Ok (length m)
  | _ => Raise (TypeError "object has no len()")
  end.

(** [AnnData.smp_names], [AnnData.var_names] *)
Definition axis_names (h : heap) (c : AnnData) (ax : axis) : result column :=
  b ← get_table h (axis_table ax c);
  rec_getfield (arr b) (names_col_of ax).

(** [AnnData.__setattr__(self, key, value)] for [key] in ['smp'], ['var']. *)
Definition AnnData_setattr (h : heap) (self : addr) (ax : axis)
    (value : attrval) : result heap :=
  c ← get_obj h self;
  let names_col := names_col_of ax in
  '(h1, t) ← match value with
             | Bound t => Ok (h, t)
             | Raw src =>
                 names_orig ← axis_names h c ax;
                 b ← BoundRecArr_new src names_col (Some self) None;
                 n ← shape_at (X c) (dim_of ax);
                 if negb (rec_len (arr b) =? n)%nat then
                   given ← source_len src;
                   expected ← AnnData_len c;
                   Raise (ValueError ("New value for '" +:+ attr_name ax
                            +:+ "' was converted to a reacarray of length "
                            +:+ show_nat given +:+ " instead of "
                            +:+ show_nat expected))
                 else
                   labels ← rec_getfield (arr b) names_col;
                   if column_eqb labels (arange n) then
                     a ← rec_setfield (arr b) names_col names_orig;
                     Ok (alloc_table h {| arr := a; _parent := _parent b;
                                          _name_col := _name_col b |})
                   else Ok (alloc_table h b)
             end;
  Ok (set_obj h1 self (with_axis_table ax t c)).

(** [bool(self._parent)] *)
Definition parent_bool (h : heap) (p : option addr) : result bool :=
  match p with
  | None => Ok false
  | Some a => c ← get_obj h a; n ← AnnData_len c; Ok (negb (n =? 0)%nat)
  end.

(** [BoundRecArr.__setitem__(self, key, value)] *)
Definition BoundRecArr_setitem (h : heap) (self : addr) (key : string)
    (value : column) : result heap :=
  b ← get_table h self;
  live ← parent_bool h (_parent b);
  if live && negb (dict_mem key (fields (arr b))) then
    let attr := if _name_col b =? SMP_NAMES then AxSmp else AxVar in
    if (rec_len (arr b) <? length value)%nat then
      Raise (ValueError ("New column has too many entries ("
               +:+ show_nat (length value) +:+ " > "
               +:+ show_nat (rec_len (arr b)) +:+ ")"))
    else
      let source := append_fields (arr b) key value in
      new ← BoundRecArr_new (SrcRec source) (_name_col b) (_parent b) None;
      let '(h1, t) := alloc_table h new in
      match _parent b with
      | Some p => AnnData_setattr h1 p attr (Bound t)
      | None => Raise (AttributeError "'NoneType' object has no attribute")
      end
  else
    a ← rec_setfield (arr b) key value;
    Ok (set_table h self {| arr := a; _parent := _parent b;
                            _name_col := _name_col b |}).

(** [_check_dimensions(data, smp, var)] *)
Definition _check_dimensions (data : ndarray) (smp var : recarray)
  : result unit :=
  match shape data with
  | [nr_smp; nr_var] =>
      if negb (rec_len smp =? nr_smp)%nat then
        Raise (ValueError
                 ("Sample metadata needs to have the same amount of "
                  +:+ "rows as data has (" +:+ show_nat nr_smp
                  +:+ "), but has " +:+ show_nat (rec_len smp) +:+ " rows"))
      else if negb (rec_len var =? nr_var)%nat then
        Raise (ValueError
                 ("Feature metadata needs to have the same amount of "
                  +:+ "rows as data has columns (" +:+ show_nat nr_var
                  +:+ "), but has " +:+ show_nat (rec_len var) +:+ " rows"))
      else Ok ()
  | _ => Raise (ValueError "not enough values to unpack")
  end.

(** ** Indexing *)

(** One component of an index: an integer, [slice(start, stop, step)], a
    list of positions, or a string. *)
Inductive ix :=
| IInt (i : Z)
| ISlice (start stop step : option Z)
| IList (l : list Z)
| IName (s : string).

(** An index: a single object, or a tuple of components. *)
Inductive index :=
| IOne (i : ix)
| ITuple (l : list ix).

(** [slice(None)] *)
Definition slice_all : ix := ISlice None None None.

Definition ix_eqb (a b : ix) : bool :=
  match a, b with
  | IInt x, IInt y => (x =? y)%Z
  | ISlice a1 a2 a3, ISlice b1 b2 b3 =>
      bool_decide (a1 = b1) && bool_decide (a2 = b2) && bool_decide (a3 = b3)
  | IList x, IList y => bool_decide (x = y)
  | IName x, IName y => (x =? y)%string
  | _, _ => false
  end.

(** [IndexMixin._unpack_index]: always a pair (row, col). *)
Definition IndexMixin_unpack_index (i : index) : result (ix * ix) :=
  match i with
  | ITuple [row; col] => Ok (row, col)
  | ITuple [row] => Ok (row, slice_all)
  | ITuple _ => Raise (IndexError "invalid number of indices")
  | IOne row => Ok (row, slice_all)
  end.

(** [AnnData._unpack_index] *)
Definition int_to_slice (i : ix) : ix :=
  match i with
  | IInt n => ISlice (Some n) (Some (n + 1)%Z) None
  | _ => i
  end.

Definition _unpack_index (i : index) : result (ix * ix) :=
  '(smp, var) ← IndexMixin_unpack_index i;
  Ok (int_to_slice smp, int_to_slice var).

Section slices.
Local Open Scope Z_scope.

(** [slice.indices(n)] *)
Definition slice_indices (start stop step : option Z) (n : nat)
  : result (Z * Z * Z) :=
  let len := Z.of_nat n in
  let st := default 1 step in
  if st =? 0 then Raise (ValueError "slice step cannot be zero")
  else
    let lower := if st <? 0 then -1 else 0 in
    let upper := if st <? 0 then len - 1 else len in
    let norm (v : option Z) (dflt : Z) :=
      match v with
      | None => dflt
      | Some s => if s <? 0 then Z.max (s + len) lower else Z.min s upper
      end in
    Ok (norm start (if st <? 0 then upper else lower),
        norm stop (if st <? 0 then lower else upper),
        st).

(** [len(range(start, stop, step))] *)
Definition range_len (start stop step : Z) : nat :=
  if 0 <? step then
    if start <? stop then Z.to_nat ((stop - start - 1) / step + 1) else 0%nat
  else
    if stop <? start then Z.to_nat ((start - stop - 1) / (- step) + 1)
    else 0%nat.

Definition range (start stop step : Z) : list Z :=
  map (fun k => start + Z.of_nat k * step)
      (seq 0 (range_len start stop step)).

(** An integer position inside a list index: negative ones count from
    the end. *)
Definition wrap_index (n : nat) (i : Z) : result nat :=
  if (0 <=? i) && (i <? Z.of_nat n) then Ok (Z.to_nat i)
  else if (- Z.of_nat n <=? i) && (i <? 0) then Ok (Z.to_nat (i + Z.of_nat n))
  else Raise (IndexError "index is out of bounds").
End slices.

Fixpoint mapM {A B} (f : A -> result B) (l : list A) : result (list B) :=
  match l with
  | [] => Ok []
  | x :: l' => y ← f x; ys ← mapM f l'; Ok (y :: ys)
  end.

(** The positions a component selects along an axis of size [n]. *)
Definition positions (n : nat) (i : ix) : result (list nat) :=
  match i with
  | ISlice a b c =>
      '(s, e, st) ← slice_indices a b c n; Ok (map Z.to_nat (range s e st))
  | IList l => mapM (wrap_index n) l
  | IInt z => p ← wrap_index n z; Ok [p]
  | IName _ =>
      Raise (IndexError "only integers, slices and integer arrays are valid indices")
  end.

Definition is_list (i : ix) : bool :=
  match i with IList _ => true | _ => false end.

(** [r[i]] for a slice or a list: the selected records, all columns. *)
Definition rec_getitem (r : recarray) (i : ix) : result recarray :=
  ps ← positions (rec_len r) i;
  Ok {| rec_len := length ps;
        fields := map (fun kv => (kv.1, map (fun p => nth p kv.2 0%Z) ps))
                      (fields r) |}.

(** ** The matrix *)

(** Row-major position of a multi-index. *)
Definition offset (sh idx : list nat) : nat :=
  foldl (fun acc ni => acc * ni.1 + ni.2) 0 (zip sh idx).

Fixpoint multi_indices (sh : list nat) : list (list nat) :=
  match sh with
  | [] => [[]]
  | n :: s => flat_map (fun i => map (cons i) (multi_indices s)) (seq 0 n)
  end.

Definition cell (a : ndarray) (i j : nat) : Z :=
  nth (offset (shape a) [i; j]) (data a) 0%Z.

(** [np.array(rows)] for a list of equally long rows. *)
Definition np_array (rows : list (list Z)) : ndarray :=
  {| kind := Array; dtype_names := false;
     shape := [length rows; length (hd [] rows)];
     data := concat rows |}.



(** Index arrays are broadcast against each other. *)
Definition pair_up (rs cs : list nat) : result (list (nat * nat)) :=
  if (length rs =? length cs)%nat then Ok (zip rs cs)
  else match rs, cs with
       | [r], _ => Ok (map (fun c => (r, c)) cs)
       | _, [c] => Ok (map (fun r => (r, c)) rs)
       | _, _ => Raise (IndexError "shape mismatch: indexing arrays could not be broadcast together")
       end.

(** The cells [a[r, c]] addresses and the shape of the selection: the
    grid of the selected rows and columns, or, when both components are
    lists, the listed (row, column) pairs.  A container's matrix has rank
    two, and only that case is spelled out. *)
Definition region (a : ndarray) (r c : ix)
  : result (list nat * list (nat * nat)) :=
  match shape a with
  | [nr; nc] =>
      rs ← positions nr r;
      cs ← positions nc c;
      if is_list r && is_list c then
        ps ← pair_up rs cs; Ok ([length ps], ps)
      else
        Ok ([length rs; length cs],
            flat_map (fun i => map (fun j => (i, j)) cs) rs)
  | _ => Raise (IndexError "too many indices for array")
  end.

(** [a[r, c]] *)
Definition ndarray_getitem (a : ndarray) (r c : ix) : result ndarray :=
  '(sh, ps) ← region a r c;
  Ok {| kind := kind a; dtype_names := dtype_names a; shape := sh;
        data := map (fun p => cell a p.1 p.2) ps |}.

(** Broadcasting of an assigned value to the shape of the selection. *)
Fixpoint strip_ones (k : nat) (sh : list nat) : result (list nat) :=
  match k with
  | 0 => Ok sh
  | S k' =>
      match sh with
      | 1 :: s => strip_ones k' s
      | _ => Raise (ValueError "could not broadcast input array")
      end
  end.

Fixpoint dims_fit (vsh tsh : list nat) : bool :=
  match vsh, tsh with
  | [], [] => true
  | dv :: v, dt :: t => ((dv =? dt)%nat || (dv =? 1)%nat) && dims_fit v t
  | _, _ => false
  end.

Definition broadcast_values (vsh : list nat) (vdata : list Z)
    (tsh : list nat) : result (list Z) :=
  s ← strip_ones (length vsh - length tsh) vsh;
  let vsh' := replicate (length tsh - length s) 1 ++ s in
  if dims_fit vsh' tsh then
    Ok (map (fun idx =>
               nth (offset vsh'
                      (zip_with (fun dv i => if (dv =? 1)%nat then 0 else i)
                                vsh' idx))
                   vdata 0%Z)
            (multi_indices tsh))
  else Raise (ValueError "could not broadcast input array").

(** [np.asarray(val)] of the value written into the matrix. *)
Definition as_values (val : pyobj) : result (list nat * list Z) :=
  match val with
  | OInt z => Ok ([], [z])
  | OList c => Ok ([length c], c)
  | OArray v => Ok (shape v, data v)
  | _ => Raise (TypeError "int() argument must be a number")
  end.

Definition write_cells (nc : nat) (d : list Z)
    (ws : list ((nat * nat) * Z)) : list Z :=
  foldl (fun d w => <[w.1.1 * nc + w.1.2 := w.2]> d) d ws.

(** [a[r, c] = val] *)
Definition ndarray_setitem (a : ndarray) (r c : ix) (val : pyobj)
  : result ndarray :=
  '(sh, ps) ← region a r c;
  '(vsh, vdata) ← as_values val;
  vs ← broadcast_values vsh vdata sh;
  Ok {| kind := kind a; dtype_names := dtype_names a; shape := shape a;
        data := write_cells (nth 1 (shape a) 0) (data a) (zip ps vs) |}.

(** [del a[r, c]]: none of the three representations implements item
    deletion; numpy answers every request with this exception. *)
Definition ndarray_delitem (a : ndarray) (r c : ix) : result ndarray :=
  match kind a with
  | Sparse => Raise (TypeError "object doesn't support item deletion")
  | _ => Raise (ValueError "cannot delete array elements")
  end.

(** [r.iloc]: attribute access on a record array falls back to the field
    of that name. *)
Definition rec_getattr (r : recarray) (name : string) : result column :=
  match dict_get name (fields r) with
  | Some c => Ok c
  | None => Raise (AttributeError ("record array has no attribute " +:+ name))
  end.

(** [del r.iloc[i, :]] *)
Definition rec_iloc_delitem (r : recarray) (i j : ix) : result recarray :=
  _ ← rec_getattr r "iloc";
  Raise (ValueError "cannot delete array elements").

(** ** AnnData: construction *)

(** The legacy bundle [ddata], and the keyword metadata [**meta]. *)
Abbreviation bundle := (list (string * pyobj)).

(** [isinstance(X, s_type.value)]: a masked array is an [np.ndarray]. *)
Definition isinstance_storage (k cls : StorageType) : bool :=
  match k, cls with
  | Array, Array | Masked, Array | Masked, Masked | Sparse, Sparse => true
  | _, _ => false
  end.

Definition type_repr (o : pyobj) : string :=
  match o with
  | ONone => "<class 'NoneType'>"
  | OInt _ => "<class 'int'>"
  | OStr _ => "<class 'str'>"
  | OList _ => "<class 'list'>"
  | OArray _ => "<class 'numpy.ndarray'>"
  | ODict _ => "<class 'dict'>"
  end.

(** [np.rec.fromarrays([np.asarray(names)], names=[name])] *)
Definition names_source (o : pyobj) (name : string) : source :=
  match o with
  | OList c => SrcRec {| rec_len := length c; fields := [(name, c)] |}
  | OArray a =>
      match shape a with
      | [n] => SrcRec {| rec_len := n; fields := [(name, data a)] |}
      | sh => SrcRecNd (length sh)
      end
  | _ => SrcRecNd 0
  end.

(** Lines 151-174: the recognised keys are read and deleted from the
    caller's mapping. *)
Definition init_legacy (ddata : bundle) (X : pyobj) (smp var : source)
  : bundle * pyobj * source * source :=
  let '(ddata, X) :=
    match dict_get "X" ddata with
    | Some x => (dict_del "X" ddata, x)
    | None => (ddata, X)
    end in
  let '(ddata, smp) :=
    match dict_get "row_names" ddata with
    | Some row_names =>
        (dict_del "row_names" ddata, names_source row_names SMP_NAMES)
    | None =>
        match dict_get "smp_names" ddata with
        | Some smp_names =>
            (dict_del "smp_names" ddata, names_source smp_names SMP_NAMES)
        | None => (ddata, smp)
        end
    end in
  let '(ddata, var) :=
    match dict_get "col_names" ddata with
    | Some col_names =>
        (dict_del "col_names" ddata, names_source col_names VAR_NAMES)
    | None =>
        match dict_get "var_names" ddata with
        | Some var_names =>
            (dict_del "var_names" ddata, names_source var_names VAR_NAMES)
        | None => (ddata, var)
        end
    end in
  (ddata, X, smp, var).

Definition with_meta (m : bundle) (c : AnnData) : AnnData :=
  {| storage_type := storage_type c; X := X c; smp := smp c; var := var c;
     vis := vis c; _meta := m |}.

Definition with_X (a : ndarray) (c : AnnData) : AnnData :=
  {| storage_type := storage_type c; X := a; smp := smp c; var := var c;
     vis := vis c; _meta := _meta c |}.

Definition alloc_obj (h : heap) (c : AnnData) : heap :=
  {| tables := tables h; objs := objs h ++ [c] |}.

(** [for k, v in ddata[key].items(): self.smp[k] = v] (or [self.var]) *)
Fixpoint set_columns (h : heap) (self : addr) (ax : axis)
    (items : list (string * column)) : result heap :=
  match items with
  | [] => Ok h
  | (k, v) :: rest =>
      c ← get_obj h self;
      h' ← BoundRecArr_setitem h (axis_table ax c) k v;
      set_columns h' self ax rest
  end.

(** One round of the loop of lines 206-220. *)
Definition init_item (h : heap) (self : addr) (key : string) (value : pyobj)
  : result heap :=
  if negb (existsb (String.eqb key) ["smp"; "row"; "var"; "col"]) then
    c ← get_obj h self;
    Ok (set_obj h self (with_meta (dict_set key value (_meta c)) c))
  else
    let ax := if (key =? "row") || (key =? "smp") then AxSmp else AxVar in
    match value with
    | ODict m => set_columns h self ax m
    | _ => Raise (AttributeError "object has no attribute 'items'")
    end.

Fixpoint init_items (h : heap) (self : addr) (items : bundle) : result heap :=
  match items with
  | [] => Ok h
  | (key, value) :: rest =>
      h' ← init_item h self key value; init_items h' self rest
  end.

(** Lines 176-220. *)
Definition init_body (h : heap) (ddata : option bundle) (X : pyobj)
    (smp var : source) (vis : option visdict) (meta : bundle)
  : result (heap * addr) :=
  match X with
  | OArray a0 =>
      s_type ← match List.find (isinstance_storage (kind a0))
                                [Array; Masked; Sparse] with
               | Some s => Ok s
               | None => Raise (ValueError "X needs to be of one of the following types")
               end;
      let a :=
        match shape a0 with
        | [n] => {| kind := kind a0; dtype_names := dtype_names a0;
                    shape := [n; 1]; data := data a0 |}
        | _ => a0
        end in
      if negb (dtype_names a) && negb (length (shape a) =? 2)%nat then
        Raise (ValueError ("X needs to be 2-dimensional, not "
                 +:+ show_nat (length (shape a)) +:+ "D"))
      else
        match shape a with
        | [nr_smp; nr_var] =>
            let self := length (objs h) in
            bs ← BoundRecArr_new smp SMP_NAMES (Some self) (Some nr_smp);
            bv ← BoundRecArr_new var VAR_NAMES (Some self) (Some nr_var);
            _ ← _check_dimensions a (arr bs) (arr bv);
            let '(h1, ts) := alloc_table h bs in
            let '(h2, tv) := alloc_table h1 bv in
            let h3 := alloc_obj h2
                        {| storage_type := s_type; X := a; smp := ts;
                           var := tv; vis := default [] vis;
                           _meta := meta |} in
            h4 ← match ddata with
                 | Some d => init_items h3 self d
                 | None => Ok h3
                 end;
            Ok (h4, self)
        | _ => Raise (ValueError "not enough values to unpack")
        end
  | _ =>
      Raise (ValueError
               ("X needs to be of one of the following types "
                +:+ "[ndarray, MaskedArray, spmatrix] not " +:+ type_repr X))
  end.

(** [AnnData.__init__(self, ddata, X, smp, var, vis, **meta)]: the bundle
    as the caller finds it afterwards, and the new container. *)
Definition AnnData_init (h : heap) (ddata : option bundle) (X : pyobj)
    (smp var : source) (vis : option visdict) (meta : bundle)
  : option bundle * result (heap * addr) :=
  match ddata with
  | Some d =>
      let '(d', X', smp', var') := init_legacy d X smp var in
      (Some d', init_body h (Some d') X' smp' var' vis meta)
  | None => (None, init_body h None X smp var vis meta)
  end.

(** ** AnnData: the other methods *)

(** [AnnData(X=X, smp=smp, var=var, vis=vis, **kwargs)]: a keyword that
    names one of the four parameters given explicitly is refused; a
    keyword ['ddata'] becomes the legacy bundle and is edited by the
    constructor.  Returned next to the result: [kwargs] as its owner
    finds it afterwards. *)
Definition AnnData_call (h : heap) (X : pyobj) (smp var : source)
    (vis : option visdict) (kwargs : bundle)
  : bundle * result (heap * addr) :=
  if existsb (fun k => dict_mem k kwargs) ["X"; "smp"; "var"; "vis"] then
    (kwargs, Raise (TypeError "got multiple values for keyword argument"))
  else
    match dict_get "ddata" kwargs with
    | None => (kwargs, (AnnData_init h None X smp var vis kwargs).2)
    | Some ONone =>
        (kwargs,
         (AnnData_init h None X smp var vis (dict_del "ddata" kwargs)).2)
    | Some (ODict m) =>
        let d := map (fun kv => (kv.1, OList kv.2)) m in
        let '(d', r) :=
          AnnData_init h (Some d) X smp var vis (dict_del "ddata" kwargs) in
        let m' := flat_map (fun kv => match kv.2 with
                                      | OList c => [(kv.1, c)]
                                      | _ => []
                                      end) (default [] d') in
        (dict_set "ddata" (ODict m') kwargs, r)
    | Some _ =>
        (kwargs, Raise (AttributeError "object has no attribute 'items'"))
    end.

Definition set_meta (h : heap) (self : addr) (m : bundle) : heap :=
  match objs h !! self with
  | Some c => set_obj h self (with_meta m c)
  | None => h
  end.

Inductive item :=
| ItemMeta (o : pyobj)
| ItemData (a : addr).

(** Lines 286-291: the three slices and the two assertions. *)
Definition getitem_pieces (h : heap) (c : AnnData) (i : index)
  : result (ndarray * recarray * recarray) :=
  '(samp, feat) ← _unpack_index i;
  X' ← ndarray_getitem (X c) samp feat;
  bs ← get_table h (smp c);
  smp_meta ← rec_getitem (arr bs) samp;
  bv ← get_table h (var c);
  var_meta ← rec_getitem (arr bv) feat;
  n0 ← shape_at X' 0;
  if negb (rec_len smp_meta =? n0)%nat then Raise AssertionError
  else
    n1 ← shape_at X' 1;
    if negb (rec_len var_meta =? n1)%nat then Raise AssertionError
    else Ok (X', smp_meta, var_meta).

(** The heap after a call of the constructor made with the metadata of
    [self] as keywords. *)
Definition after_call (h : heap) (self : addr)
    (r : bundle * result (heap * addr)) : heap * result addr :=
  match r.2 with
  | Ok (h', a) => (set_meta h' self r.1, Ok a)
  | Raise e => (set_meta h self r.1, Raise e)
  end.

(** [AnnData.__getitem__(self, index)].  The heap is returned on both
    exits, because a metadata value passed on as ['ddata'] is edited even
    by a construction that fails. *)
Definition AnnData_getitem (h : heap) (self : addr) (i : index)
  : heap * result item :=
  match get_obj h self with
  | Raise e => (h, Raise e)
  | Ok c =>
      match i with
      | IOne (IName s) =>
          (h, match dict_get s (_meta c) with
              | Some o => Ok (ItemMeta o)
              | None => Raise (KeyError s)
              end)
      | _ =>
          match getitem_pieces h c i with
          | Raise e => (h, Raise e)
          | Ok (X', smp_meta, var_meta) =>
              let '(h', r) :=
                after_call h self
                  (AnnData_call h (OArray X') (SrcRec smp_meta)
                     (SrcRec var_meta) (Some (vis c)) (_meta c)) in
              (h', a ← r; Ok (ItemData a))
          end
      end
  end.

(** [AnnData.__setitem__(self, index, val)] *)
Definition AnnData_setitem (h : heap) (self : addr) (i : index) (val : pyobj)
  : result heap :=
  c ← get_obj h self;
  match i with
  | IOne (IName s) =>
      Ok (set_obj h self (with_meta (dict_set s val (_meta c)) c))
  | _ =>
      '(samp, feat) ← _unpack_index i;
      X' ← ndarray_setitem (X c) samp feat val;
      Ok (set_obj h self (with_X X' c))
  end.

(** [AnnData.__delitem__(self, index)] *)
Definition AnnData_delitem (h : heap) (self : addr) (i : index)
  : result heap :=
  c ← get_obj h self;
  '(samp, feat) ← _unpack_index i;
  X' ← ndarray_delitem (X c) samp feat;
  let h1 := set_obj h self (with_X X' c) in
  h2 ← (if ix_eqb feat slice_all then
          bs ← get_table h1 (smp c);
          a ← rec_iloc_delitem (arr bs) samp slice_all;
          Ok (set_table h1 (smp c)
                {| arr := a; _parent := _parent bs;
                   _name_col := _name_col bs |})
        else Ok h1);
  if ix_eqb samp slice_all then
    bv ← get_table h2 (var c);
    a ← rec_iloc_delitem (arr bv) feat slice_all;
    Ok (set_table h2 (var c)
          {| arr := a; _parent := _parent bv; _name_col := _name_col bv |})
  else Ok h2.

(** [__contains__], [get] and [__len__] read the metadata and the shape. *)
Definition AnnData_contains (c : AnnData) (key : string) : bool :=
  dict_mem key (_meta c).

Definition AnnData_get (c : AnnData) (key : string) (dflt : pyobj) : pyobj :=
  default dflt (dict_get key (_meta c)).



(** [smp_keys], [var_keys]: [list(dtype.names)[1:]] *)
Definition smp_keys (h : heap) (c : AnnData) : result (list string) :=
  b ← get_table h (smp c); Ok (tail (rec_names (arr b))).

Definition var_keys (h : heap) (c : AnnData) : result (list string) :=
  b ← get_table h (var c); Ok (tail (rec_names (arr b))).

(** [{k: table[k] for k in keys if not k == label}] *)
Definition annotation_dict (r : recarray) (keys : list string)
    (label : string) : result (list (string * column)) :=
  mapM (fun k => c ← rec_getfield r k; Ok (k, c))
       (List.filter (fun k => negb (k =? label)) keys).

(** A 1-D view of a column. *)
Definition as_array (c : column) : pyobj :=
  OArray {| kind := Array; dtype_names := false; shape := [length c];
            data := c |}.

(** [AnnData.to_dict(self)] *)
Definition to_dict (h : heap) (self : addr) : result bundle :=
  c ← get_obj h self;
  bs ← get_table h (smp c);
  bv ← get_table h (var c);
  sk ← smp_keys h c;
  smp_d ← annotation_dict (arr bs) sk "smp_names";
  vk ← var_keys h c;
  var_d ← annotation_dict (arr bv) vk "var_names";
  smp_names ← axis_names h c AxSmp;
  var_names ← axis_names h c AxVar;
  let d := [("X", OArray (X c)); ("smp", ODict smp_d); ("var", ODict var_d);
            ("smp_names", as_array smp_names);
            ("var_names", as_array var_names)] in
  Ok (foldl (fun d kv => dict_set kv.1 kv.2 d) d (_meta c)).


(** [BoundRecArr(source, name_col, parent, nr_row)] called from outside:
    the new table joins the heap. *)
Definition BoundRecArr_create (h : heap) (src : source) (name_col : string)
    (parent : option addr) (nr_row : option nat) : result (heap * addr) :=
  b ← BoundRecArr_new src name_col parent nr_row;
  Ok (alloc_table h b).

(** ** The containers of the test suite *)

Definition heap_of (r : option bundle * result (heap * addr)) : heap :=
  match r.2 with Ok (h, _) => h | Raise _ => empty_heap end.

(** [np.array([[1, 2, 3], [4, 5, 6]])] *)
Definition test_matrix : ndarray := np_array [[1; 2; 3]; [4; 5; 6]]%Z.

(** [mat = AnnData(np.array([[1, 2, 3], [4, 5, 6]]))], at address 0. *)
Definition test_mat : heap :=
  heap_of (AnnData_init empty_heap None (OArray test_matrix)
             SrcNone SrcNone None []).

(** The same matrix with one annotation column on each axis, as in
    [test_get_subset_meta] (the letters as their code points). *)
Definition test_mat_meta : heap :=
  heap_of (AnnData_init empty_heap None (OArray test_matrix)
             (SrcMap [("Smp", [65; 66]%Z)])
             (SrcMap [("Feat", [97; 98; 99]%Z)]) None []).



(** [np.zeros((0, 3))]: a matrix without rows. *)
Definition empty_matrix : ndarray :=
  {| kind := Array; dtype_names := false; shape := [0; 3]; data := [] |}.

Definition test_empty : heap :=
  heap_of (AnnData_init empty_heap None (OArray empty_matrix)
             SrcNone SrcNone None []).


(** The container of [test_ddata], with one row annotation: its tables
    start with the label column. *)
Definition test_legacy : heap :=
  heap_of (AnnData_init empty_heap
             (Some [("X", OArray test_matrix); ("row_names", OList [65; 66]%Z);
                    ("col_names", OList [97; 98; 99]%Z);
                    ("row", ODict [("Smp", [1; 2]%Z)]); ("k", OInt 1)])
             ONone SrcNone SrcNone None []).

(** A legacy bundle that names the rows twice. *)
Definition legacy_example : bundle :=
  [("X", OArray test_matrix); ("row_names", OList [1; 2]%Z);
   ("smp_names", OList [3; 4]%Z)].

(** What the constructor leaves of the bundle: [key] is taken out. *)
Definition take_key {V} (key : string) (d : list (string * V))
  : list (string * V) :=
  if dict_mem key d then dict_del key d else d.

(** Of two spellings, the first is taken out, or else the second. *)
Definition take_alias {V} (key alias : string) (d : list (string * V))
  : list (string * V) :=
  if dict_mem key d then dict_del key d else take_key alias d.






(** ** Well-formed tables and the shape invariant *)

(** A record array as numpy builds them: at least one field, no name
    twice, every column as long as the array. *)
Definition rec_wf (r : recarray) : Prop :=
  fields r ≠ [] ∧ NoDup (rec_names r) ∧
  Forall (fun kv => length kv.2 = rec_len r) (fields r).

(** The row table of the container at [a] is as long as its matrix has
    rows, and its column table as long as the matrix has columns. *)
Definition shape_invariant (h : heap) (a : addr) : Prop :=
  ∃ c bs bv nr nc,
    objs h !! a = Some c ∧
    tables h !! smp c = Some bs ∧ tables h !! var c = Some bv ∧
    shape (X c) = [nr; nc] ∧
    rec_len (arr bs) = nr ∧ rec_len (arr bv) = nc.

(** The table at [t] is a well-formed table of [n] rows, bound to [self]
    on the axis [ax]. *)
Definition table_ok (h : heap) (self : addr) (ax : axis) (n : nat)
    (t : addr) : Prop :=
  ∃ b, tables h !! t = Some b ∧ rec_wf (arr b) ∧ rec_len (arr b) = n ∧
       _parent b = Some self ∧ _name_col b = names_col_of ax.

(** The container at [self] as the constructor leaves it: a matrix of
    rank two and its own two tables of matching lengths. *)
Definition owned (h : heap) (self : addr) (nr nc : nat) : Prop :=
  ∃ c, objs h !! self = Some c ∧ shape (X c) = [nr; nc] ∧
       table_ok h self AxSmp nr (smp c) ∧ table_ok h self AxVar nc (var c).

(** What [fill_fields] makes of the columns handed to it. *)
Definition broadcast_cols (n : nat) (cols : list (string * column))
  : result (list (string * column)) :=
  mapM (fun kv => c ← broadcast_to n kv.2; Ok (kv.1, c)) cols.

(** * Properties *)

(** ** Dictionaries *)

Section dict_facts.
Context {V : Type}.
Implicit Types (d : list (string * V)) (k : string) (v : V).

Lemma dict_get_None k d : dict_get k d = None ↔ k ∉ dict_keys d.
Proof.
  induction d as [|[k' v'] d IH]; simpl.
  - split; [intros _; apply not_elem_of_nil | done].
  - destruct (String.eqb_spec k k') as [->|Hne].
    + split; [done | intros H; exfalso; apply H; left].
    + rewrite IH, not_elem_of_cons. simpl. tauto.
Qed.

Lemma dict_mem_true k d : dict_mem k d = true ↔ k ∈ dict_keys d.
Proof.
  unfold dict_mem. destruct (dict_get k d) eqn:E.
  - split; [intros _ | done].
    destruct (decide (k ∈ dict_keys d)) as [|Hn]; [done|].
    apply dict_get_None in Hn. congruence.
  - apply dict_get_None in E. split; [done | intros; contradiction].
Qed.

Lemma dict_mem_false k d : dict_mem k d = false ↔ k ∉ dict_keys d.
Proof.
  rewrite <- dict_mem_true. destruct (dict_mem k d); naive_solver.
Qed.

Lemma dict_get_set_eq k v d : dict_get k (dict_set k v d) = Some v.
Proof.
  induction d as [|[k' v'] d IH]; simpl.
  - by rewrite String.eqb_refl.
  - destruct (String.eqb_spec k k') as [->|Hne]; simpl.
    + by rewrite String.eqb_refl.
    + by destruct (String.eqb_spec k k').
Qed.

Lemma dict_get_set_ne k k' v d :
  k ≠ k' → dict_get k' (dict_set k v d) = dict_get k' d.
Proof.
  intros Hne. induction d as [|[k0 v0] d IH]; simpl.
  - by destruct (String.eqb_spec k' k) as [->|].
  - destruct (String.eqb_spec k k0) as [->|Hne0]; simpl.
    + by destruct (String.eqb_spec k' k0) as [->|].
    + destruct (String.eqb_spec k' k0); [done | apply IH].
Qed.

Lemma dict_get_del_eq k d : dict_get k (dict_del k d) = None.
Proof.
  induction d as [|[k' v'] d IH]; simpl; [done|].
  destruct (String.eqb_spec k k') as [->|Hne]; simpl; [done|].
  by destruct (String.eqb_spec k k').
Qed.

Lemma dict_get_del_ne k k' d :
  k ≠ k' → dict_get k' (dict_del k d) = dict_get k' d.
Proof.
  intros Hne. induction d as [|[k0 v0] d IH]; simpl; [done|].
  destruct (String.eqb_spec k k0) as [->|Hne0]; simpl.
  - by destruct (String.eqb_spec k' k0) as [->|].
  - destruct (String.eqb_spec k' k0); [done | apply IH].
Qed.

Lemma dict_set_middle k v v0 d1 d2 :
  k ∉ dict_keys d1 →
  dict_set k v (d1 ++ (k, v0) :: d2) = d1 ++ (k, v) :: d2.
Proof.
  induction d1 as [|[k' v'] d1 IH]; simpl; intros Hk.
  - by rewrite String.eqb_refl.
  - apply not_elem_of_cons in Hk as [Hne Hk]. simpl in Hne.
    destruct (String.eqb_spec k k'); [done|]. by rewrite IH.
Qed.

Lemma dict_mem_middle k v0 d1 d2 : dict_mem k (d1 ++ (k, v0) :: d2) = true.
Proof.
  apply dict_mem_true. unfold dict_keys. rewrite fmap_app. simpl.
  apply elem_of_app. right. left.
Qed.

Lemma dict_keys_set_mem k v d :
  k ∈ dict_keys d → dict_keys (dict_set k v d) = dict_keys d.
Proof.
  induction d as [|[k' v'] d IH]; simpl; intros Hk.
  - by apply elem_of_nil in Hk.
  - destruct (String.eqb_spec k k') as [->|Hne]; simpl; [done|].
    f_equal. apply IH. apply elem_of_cons in Hk as [|]; done.
Qed.

Lemma dict_get_Some_elem k v d : dict_get k d = Some v → (k, v) ∈ d.
Proof.
  induction d as [|[k' v'] d IH]; simpl; [done|].
  destruct (String.eqb_spec k k') as [->|Hne].
  - intros [= ->]. left.
  - intros H. right. auto.
Qed.

Lemma dict_get_NoDup k v d :
  NoDup (dict_keys d) → (k, v) ∈ d → dict_get k d = Some v.
Proof.
  induction d as [|[k' v'] d IH]; simpl; intros Hnd Hin.
  - by apply elem_of_nil in Hin.
  - apply NoDup_cons in Hnd as [Hk' Hnd].
    apply elem_of_cons in Hin as [[= -> ->]|Hin].
    + by rewrite String.eqb_refl.
    + destruct (String.eqb_spec k k') as [->|Hne]; [|auto].
      exfalso. apply Hk'. apply list_elem_of_fmap. by exists (k', v).
Qed.
End dict_facts.

Lemma has_dup_false l : has_dup l = false ↔ NoDup l.
Proof.
  induction l as [|x l IH]; simpl.
  - split; [intros _; constructor | done].
  - rewrite orb_false_iff, IH, NoDup_cons.
    assert (existsb (String.eqb x) l = false ↔ x ∉ l) as ->; [|done].
    rewrite <- not_true_iff_false, existsb_exists.
    split.
    + intros H Hin. apply H. exists x. split; [by apply list_elem_of_In|].
      apply String.eqb_refl.
    + intros H (y & Hy & Heq). apply String.eqb_eq in Heq as ->.
      by apply H, list_elem_of_In.
Qed.

(** ** Record arrays *)

Lemma broadcast_to_length n c c' : broadcast_to n c = Ok c' → length c' = n.
Proof.
  unfold broadcast_to. destruct (Nat.eqb_spec (length c) n) as [<-|Hne].
  - by intros [= ->].
  - destruct c as [|x [|y c]]; intros [=]; subst. apply length_replicate.
Qed.

Lemma broadcast_to_same n c : length c = n → broadcast_to n c = Ok c.
Proof. intros <-. unfold broadcast_to. by rewrite Nat.eqb_refl. Qed.

Lemma rec_setfield_len r k v r' :
  rec_setfield r k v = Ok r' → rec_len r' = rec_len r.
Proof.
  unfold rec_setfield. destruct (dict_mem k (fields r)); [|done].
  destruct (broadcast_to (rec_len r) v); simpl; [|done]. by intros [= <-].
Qed.

Lemma rec_setfield_missing r k v :
  dict_mem k (fields r) = false →
  rec_setfield r k v = Raise (ValueError ("no field of name " +:+ k)).
Proof. unfold rec_setfield. by intros ->. Qed.

Lemma broadcast_cols_keys n cols cols' :
  broadcast_cols n cols = Ok cols' → dict_keys cols' = dict_keys cols.
Proof.
  revert cols'. induction cols as [|[k c] cols IH]; simpl; intros cols'.
  - by intros [= <-].
  - unfold broadcast_cols in *. simpl.
    destruct (broadcast_to n c) as [c'|]; simpl; [|done].
    destruct (mapM _ cols) as [rest|]; simpl; [|done].
    intros [= <-]. simpl. f_equal. by apply IH.
Qed.

Lemma broadcast_cols_length n cols cols' :
  broadcast_cols n cols = Ok cols' →
  Forall (fun kv => length kv.2 = n) cols'.
Proof.
  revert cols'. induction cols as [|[k c] cols IH]; simpl; intros cols'.
  - intros [= <-]. constructor.
  - unfold broadcast_cols in *. simpl.
    destruct (broadcast_to n c) as [c'|] eqn:Hc; simpl; [|done].
    destruct (mapM _ cols) as [rest|]; simpl; [|done].
    intros [= <-]. constructor; [|by apply IH].
    simpl. by eapply broadcast_to_length.
Qed.

Lemma broadcast_cols_same n cols :
  Forall (fun kv => length kv.2 = n) cols → broadcast_cols n cols = Ok cols.
Proof.
  induction 1 as [|[k c] cols Hc _ IH]; [done|].
  unfold broadcast_cols in *. simpl in *.
  rewrite broadcast_to_same by done. simpl. by rewrite IH.
Qed.

(** The loop of lines 60-61 writes every column once. *)
Lemma fill_fields_eq n done todo :
  NoDup (dict_keys (done ++ todo)) →
  fill_fields {| rec_len := n;
                 fields := done ++ map (fun kv => (kv.1, replicate n 0%Z)) todo |}
              todo
  = (todo' ← broadcast_cols n todo;
     Ok {| rec_len := n; fields := done ++ todo' |}).
Proof.
  revert done. induction todo as [|[k c] todo IH]; intros done Hnd; simpl.
  - by rewrite !app_nil_r.
  - unfold dict_keys in Hnd. rewrite fmap_app in Hnd. simpl in Hnd.
    apply NoDup_app in Hnd as (Hd & Hdis & Ht).
    assert (k ∉ dict_keys done) as Hk.
    { intros Hin. apply (Hdis _ Hin). left. }
    unfold rec_setfield. simpl.
    rewrite dict_mem_middle.
    unfold broadcast_cols. simpl.
    destruct (broadcast_to n c) as [c'|]; simpl; [|done].
    rewrite dict_set_middle by done.
    specialize (IH (done ++ [(k, c')])).
    rewrite <- !app_assoc in IH. simpl in IH. rewrite IH.
    + unfold broadcast_cols. destruct (mapM _ todo); simpl; [|done].
      by rewrite <- app_assoc.
    + unfold dict_keys. rewrite fmap_app. simpl.
      apply NoDup_app. split; [done|]. split; [|done].
      intros x Hx Hx'. by apply (Hdis x Hx).
Qed.

Lemma BoundRecArr_new_eq src name_col parent nr_row :
  BoundRecArr_new src name_col parent nr_row
  = (cols ← source_cols src name_col nr_row;
     if has_dup (dict_keys cols)
     then Raise (ValueError "field occurs more than once")
     else match cols with
          | [] => Raise (IndexError "list index out of range")
          | (_, c0) :: _ =>
              cols' ← broadcast_cols (length c0) cols;
              Ok {| arr := {| rec_len := length c0; fields := cols' |};
                    _parent := parent; _name_col := name_col |}
          end).
Proof.
  unfold BoundRecArr_new.
  destruct (source_cols src name_col nr_row) as [cols|]; simpl; [|done].
  destruct (has_dup (dict_keys cols)) eqn:Hd; [done|].
  destruct cols as [|[k0 c0] cols]; [done|].
  apply has_dup_false in Hd.
  pose proof (fill_fields_eq (length c0) [] ((k0, c0) :: cols) Hd) as H.
  cbn [app] in H. rewrite H.
  by destruct (broadcast_cols _ _).
Qed.

Lemma BoundRecArr_new_wf src name_col parent nr_row b :
  BoundRecArr_new src name_col parent nr_row = Ok b →
  rec_wf (arr b) ∧ _parent b = parent ∧ _name_col b = name_col.
Proof.
  rewrite BoundRecArr_new_eq.
  destruct (source_cols src name_col nr_row) as [cols|]; simpl; [|done].
  destruct (has_dup (dict_keys cols)) eqn:Hd; [done|].
  apply has_dup_false in Hd.
  destruct cols as [|[k0 c0] cols]; [done|].
  destruct (broadcast_cols (length c0) ((k0, c0) :: cols)) as [cols'|] eqn:Hb;
    simpl; [|done].
  intros [= <-]. simpl. split; [|done].
  pose proof (broadcast_cols_keys _ _ _ Hb) as Hk.
  pose proof (broadcast_cols_length _ _ _ Hb) as Hl.
  unfold rec_wf, rec_names. simpl. rewrite Hk. split; [|done].
  intros ->. discriminate Hk.
Qed.

Lemma arange_length n : length (arange n) = n.
Proof. unfold arange. by rewrite length_map, length_seq. Qed.

(** A well-formed record array is copied as it is. *)
Lemma BoundRecArr_new_copy r name_col parent nr_row :
  rec_wf r →
  BoundRecArr_new (SrcRec r) name_col parent nr_row
  = Ok {| arr := r; _parent := parent; _name_col := name_col |}.
Proof.
  intros (Hne & Hnd & Hlen). rewrite BoundRecArr_new_eq. simpl.
  apply has_dup_false in Hnd. unfold rec_names in Hnd. rewrite Hnd.
  destruct r as [n fs]. simpl in *.
  destruct fs as [|[k0 c0] fs]; [done|].
  pose proof Hlen as Hlen'. apply Forall_cons in Hlen' as [H0 _].
  simpl in H0. rewrite H0, broadcast_cols_same by done. done.
Qed.

(** A mapping of full-length columns becomes a table with these columns,
    followed by the default labels if the mapping has none. *)
Lemma BoundRecArr_new_map m name_col parent nr_row n :
  m ≠ [] → NoDup (dict_keys m) →
  Forall (fun kv => length kv.2 = n) m →
  BoundRecArr_new (SrcMap m) name_col parent nr_row
  = Ok {| arr := {| rec_len := n;
                    fields := if dict_mem name_col m then m
                              else m ++ [(name_col, arange n)] |};
          _parent := parent; _name_col := name_col |}.
Proof.
  intros Hne Hnd Hlen. rewrite BoundRecArr_new_eq. simpl.
  destruct m as [|[k0 c0] m]; [done|].
  pose proof Hlen as Hlen'. apply Forall_cons in Hlen' as [H0 _].
  simpl in H0.
  destruct (dict_mem name_col ((k0, c0) :: m)) eqn:Hmem; simpl.
  - apply has_dup_false in Hnd. simpl in Hnd. rewrite Hnd.
    rewrite H0, broadcast_cols_same by done. done.
  - assert (has_dup (dict_keys (((k0, c0) :: m) ++ [(name_col, arange (length c0))]))
            = false) as Hd.
    { apply has_dup_false. unfold dict_keys. rewrite fmap_app.
      apply NoDup_app. split; [done|]. split; [|apply NoDup_singleton].
      intros x Hx Hx'. apply list_elem_of_singleton in Hx'. subst x.
      by apply dict_mem_false in Hmem. }
    simpl in Hd. rewrite Hd.
    rewrite H0.
    pose proof (broadcast_cols_same n (((k0, c0) :: m) ++ [(name_col, arange n)]))
      as Hb.
    simpl in Hb. rewrite Hb; [done|].
    apply Forall_cons in Hlen as [_ Hlen].
    constructor; [done|]. apply Forall_app. split; [done|].
    constructor; [|constructor]. simpl. apply arange_length.
Qed.

Lemma pad_to_same n c : length c = n → pad_to n c = c.
Proof.
  intros <-. unfold pad_to. rewrite Nat.sub_diag. simpl. apply app_nil_r.
Qed.

Lemma pad_to_length n c : (length c ≤ n)%nat → length (pad_to n c) = n.
Proof.
  intros H. unfold pad_to. rewrite length_app, length_replicate. lia.
Qed.

(** Appending a column that is not too long keeps the rows and the old
    columns. *)
Lemma append_fields_eq r k v :
  rec_wf r → (length v ≤ rec_len r)%nat →
  append_fields r k v
  = {| rec_len := rec_len r;
       fields := fields r ++ [(k, pad_to (rec_len r) v)] |}.
Proof.
  intros (_ & _ & Hlen) Hv. unfold append_fields.
  rewrite Nat.max_l by done. f_equal. f_equal.
  induction Hlen as [|[k' c'] fs Hc _ IH]; [done|].
  simpl in *. rewrite pad_to_same by done. by rewrite IH.
Qed.

Lemma append_fields_wf r k v :
  rec_wf r → (length v ≤ rec_len r)%nat → k ∉ rec_names r →
  rec_wf (append_fields r k v).
Proof.
  intros Hwf Hv Hk. rewrite append_fields_eq by done.
  destruct Hwf as (Hne & Hnd & Hlen). unfold rec_wf, rec_names. simpl.
  split; [|split].
  - intros H. apply app_eq_nil in H as [_ H]. done.
  - unfold dict_keys. rewrite fmap_app. apply NoDup_app.
    split; [done|]. split; [|apply NoDup_singleton].
    intros x Hx Hx'. apply list_elem_of_singleton in Hx'. by subst x.
  - apply Forall_app. split; [done|]. constructor; [|constructor].
    simpl. by apply pad_to_length.
Qed.

Lemma rec_setfield_wf r k v r' :
  rec_wf r → rec_setfield r k v = Ok r' → rec_wf r'.
Proof.
  intros (Hne & Hnd & Hlen). unfold rec_setfield.
  destruct (dict_mem k (fields r)) eqn:Hmem; [|done].
  destruct (broadcast_to (rec_len r) v) as [v'|] eqn:Hv; simpl; [|done].
  intros [= <-]. apply dict_mem_true in Hmem.
  unfold rec_wf, rec_names. simpl.
  rewrite dict_keys_set_mem by done. split; [|split; [done|]].
  - destruct (fields r) as [|[k0 c0] fs]; [done|]. simpl.
    by destruct (k =? k0).
  - apply broadcast_to_length in Hv. clear -Hlen Hv.
    induction Hlen as [|[k0 c0] fs Hc Hfs IH]; simpl.
    + constructor; [done|constructor].
    + destruct (k =? k0); constructor; done.
Qed.

(** ** The heap *)

Lemma get_table_Some h t b : tables h !! t = Some b → get_table h t = Ok b.
Proof. unfold get_table. by intros ->. Qed.

Lemma get_obj_Some h a c : objs h !! a = Some c → get_obj h a = Ok c.
Proof. unfold get_obj. by intros ->. Qed.

Lemma get_obj_Ok h a c : get_obj h a = Ok c → objs h !! a = Some c.
Proof. unfold get_obj. destruct (objs h !! a); by intros [= ->]. Qed.

Lemma get_table_Ok h t b : get_table h t = Ok b → tables h !! t = Some b.
Proof. unfold get_table. destruct (tables h !! t); by intros [= ->]. Qed.

Lemma alloc_table_old h b t b' :
  tables h !! t = Some b' → tables (alloc_table h b).1 !! t = Some b'.
Proof. intros H. simpl. by apply lookup_app_l_Some. Qed.

Lemma alloc_table_new h b :
  tables (alloc_table h b).1 !! (alloc_table h b).2 = Some b.
Proof. simpl. by rewrite list_lookup_middle. Qed.

Lemma set_obj_same h a c : objs h !! a = Some c → set_obj h a c = h.
Proof.
  intros H. destruct h as [ts os]. unfold set_obj. simpl in *.
  by rewrite list_insert_id.
Qed.

Lemma set_obj_lookup h a c c0 :
  objs h !! a = Some c0 → objs (set_obj h a c) !! a = Some c.
Proof.
  intros H. simpl. apply list_lookup_insert_eq. by eapply lookup_lt_Some.
Qed.

Lemma setattr_bound h self ax t c :
  objs h !! self = Some c →
  AnnData_setattr h self ax (Bound t)
  = Ok (set_obj h self (with_axis_table ax t c)).
Proof. intros H. unfold AnnData_setattr. by rewrite (get_obj_Some _ _ _ H). Qed.

(** ** Column writes *)

(** The two ways a successful column write changes the heap: the table
    is edited in place, or a new table of the same length is attached to
    the owner. *)
Lemma setitem_cases h t b self c k v h' :
  tables h !! t = Some b → _parent b = Some self →
  objs h !! self = Some c → rec_wf (arr b) →
  BoundRecArr_setitem h t k v = Ok h' →
  ∃ a', rec_wf a' ∧ rec_len a' = rec_len (arr b) ∧
    let b' := {| arr := a'; _parent := _parent b; _name_col := _name_col b |} in
    (h' = set_table h t b' ∨
     h' = set_obj (alloc_table h b').1 self
            (with_axis_table
               (if _name_col b =? SMP_NAMES then AxSmp else AxVar)
               (length (tables h)) c)).
Proof.
  intros Ht Hp Hc Hwf. unfold BoundRecArr_setitem.
  rewrite (get_table_Some _ _ _ Ht). simpl. rewrite Hp. simpl.
  rewrite (get_obj_Some _ _ _ Hc). simpl.
  destruct (AnnData_len c) as [n|]; simpl; [|done].
  destruct (negb (n =? 0)%nat && negb (dict_mem k (fields (arr b)))) eqn:Hnew.
  - apply andb_true_iff in Hnew as [_ Hk].
    apply negb_true_iff, dict_mem_false in Hk.
    destruct (Nat.ltb_spec (rec_len (arr b)) (length v)) as [|Hlen]; [done|].
    rewrite BoundRecArr_new_copy by (by apply append_fields_wf).
    simpl. rewrite (setattr_bound _ _ _ _ c) by done.
    intros [= <-]. exists (append_fields (arr b) k v).
    split; [by apply append_fields_wf|]. split.
    + by rewrite append_fields_eq.
    + right. done.
  - destruct (rec_setfield (arr b) k v) as [a|] eqn:Ha; simpl; [|done].
    intros [= <-]. exists a. split; [by eapply rec_setfield_wf|].
    split; [by eapply rec_setfield_len|]. by left.
Qed.

Lemma table_ok_intro h self ax n t b :
  tables h !! t = Some b → rec_wf (arr b) → rec_len (arr b) = n →
  _parent b = Some self → _name_col b = names_col_of ax →
  table_ok h self ax n t.
Proof. intros. by exists b. Qed.

Lemma table_ok_alloc h self ax n t b :
  table_ok h self ax n t → table_ok (alloc_table h b).1 self ax n t.
Proof.
  intros (b0 & Ht & H). exists b0. split; [|done]. by apply alloc_table_old.
Qed.

Lemma table_ok_set_obj h self ax n t a c :
  table_ok h self ax n t → table_ok (set_obj h a c) self ax n t.
Proof. done. Qed.

Lemma table_ok_set_table_ne h self ax n t t' b :
  t ≠ t' → table_ok h self ax n t → table_ok (set_table h t' b) self ax n t.
Proof.
  intros Hne (b0 & Ht & H). exists b0. split; [|done].
  simpl. by rewrite list_lookup_insert_ne.
Qed.

Lemma table_ok_distinct h self nr nc t t' :
  table_ok h self AxSmp nr t → table_ok h self AxVar nc t' → t ≠ t'.
Proof.
  intros (b & Ht & _ & _ & _ & Hn) (b' & Ht' & _ & _ & _ & Hn') ->.
  rewrite Ht in Ht'. injection Ht' as ->. rewrite Hn in Hn'. done.
Qed.

(** A column write keeps the container and its tables in step. *)
Lemma setitem_owned h self nr nc c ax k v h' :
  owned h self nr nc → objs h !! self = Some c →
  BoundRecArr_setitem h (axis_table ax c) k v = Ok h' →
  owned h' self nr nc.
Proof.
  intros (c0 & Hc0 & Hsh & Hs & Hv) Hc Hset.
  rewrite Hc in Hc0. injection Hc0 as <-.
  pose proof (table_ok_distinct _ _ _ _ _ _ Hs Hv) as Hne.
  destruct ax; simpl in Hset.
  - destruct Hs as (bs & Hts & Hwf & Hlen & Hp & Hn).
    destruct (setitem_cases _ _ _ _ _ _ _ _ Hts Hp Hc Hwf Hset)
      as (a' & Hwf' & Hlen' & [-> | ->]).
    + exists c. split; [done|]. split; [done|]. split.
      * eexists. split; [apply list_lookup_insert_eq; by eapply lookup_lt_Some|].
        simpl. split; [done|]. split; [congruence|]. done.
      * apply table_ok_set_table_ne; [congruence | done].
    + rewrite Hn. simpl. eexists. split; [by eapply set_obj_lookup|].
      split; [done|]. simpl. split.
      * eexists. split; [apply list_lookup_middle; done|].
        simpl. split; [done|]. split; [congruence|]. done.
      * apply table_ok_set_obj. by apply table_ok_alloc.
  - destruct Hv as (bv & Htv & Hwf & Hlen & Hp & Hn).
    destruct (setitem_cases _ _ _ _ _ _ _ _ Htv Hp Hc Hwf Hset)
      as (a' & Hwf' & Hlen' & [-> | ->]).
    + exists c. split; [done|]. split; [done|]. split.
      * apply table_ok_set_table_ne; [congruence | done].
      * eexists. split; [apply list_lookup_insert_eq; by eapply lookup_lt_Some|].
        simpl. split; [done|]. split; [congruence|]. done.
    + rewrite Hn. simpl. eexists. split; [by eapply set_obj_lookup|].
      split; [done|]. simpl. split.
      * apply table_ok_set_obj. by apply table_ok_alloc.
      * eexists. split; [apply list_lookup_middle; done|].
        simpl. split; [done|]. split; [congruence|]. done.
Qed.

Lemma owned_obj h self nr nc :
  owned h self nr nc → ∃ c, objs h !! self = Some c.
Proof. intros (c & Hc & _). by exists c. Qed.

Lemma set_columns_owned h self nr nc ax items h' :
  owned h self nr nc → set_columns h self ax items = Ok h' →
  owned h' self nr nc.
Proof.
  revert h. induction items as [|[k v] items IH]; simpl; intros h Ho.
  - by intros [= <-].
  - destruct (owned_obj _ _ _ _ Ho) as [c Hc].
    rewrite (get_obj_Some _ _ _ Hc). simpl.
    destruct (BoundRecArr_setitem h (axis_table ax c) k v) as [h1|] eqn:Hs;
      simpl; [|done].
    apply IH. by eapply setitem_owned.
Qed.

Lemma owned_with_meta h self nr nc c m :
  owned h self nr nc → objs h !! self = Some c →
  owned (set_obj h self (with_meta m c)) self nr nc.
Proof.
  intros (c0 & Hc0 & Hsh & Hs & Hv) Hc.
  rewrite Hc in Hc0. injection Hc0 as <-.
  exists (with_meta m c). split; [by eapply set_obj_lookup|]. done.
Qed.

Lemma init_items_owned h self nr nc items h' :
  owned h self nr nc → init_items h self items = Ok h' →
  owned h' self nr nc.
Proof.
  revert h. induction items as [|[key value] items IH]; simpl; intros h Ho.
  - by intros [= <-].
  - destruct (init_item h self key value) as [h1|] eqn:Hi; simpl; [|done].
    apply IH. unfold init_item in Hi.
    destruct (negb (existsb (String.eqb key) ["smp"; "row"; "var"; "col"])).
    + destruct (owned_obj _ _ _ _ Ho) as [c Hc].
      rewrite (get_obj_Some _ _ _ Hc) in Hi. simpl in Hi.
      injection Hi as <-. by apply owned_with_meta.
    + destruct value; try done. by eapply set_columns_owned.
Qed.

Lemma owned_shape_invariant h self nr nc :
  owned h self nr nc → shape_invariant h self.
Proof.
  intros (c & Hc & Hsh & (bs & Hs & _ & Hls & _) & (bv & Hv & _ & Hlv & _)).
  by exists c, bs, bv, nr, nc.
Qed.

(** ** Construction *)

Lemma check_dimensions_Ok a rs rv :
  _check_dimensions a rs rv = Ok () →
  shape a = [rec_len rs; rec_len rv].
Proof.
  unfold _check_dimensions.
  destruct (shape a) as [|nr [|nc [|? ?]]]; try done.
  destruct (Nat.eqb_spec (rec_len rs) nr) as [->|]; [|done].
  destruct (Nat.eqb_spec (rec_len rv) nc) as [->|]; done.
Qed.

Lemma init_body_owned h ddata X0 smp0 var0 vis0 meta h' a :
  init_body h ddata X0 smp0 var0 vis0 meta = Ok (h', a) →
  ∃ nr nc, owned h' a nr nc.
Proof.
  unfold init_body. destruct X0 as [| | | |a0|]; try done.
  destruct (List.find _ _) as [s_type|]; simpl; [|done].
  set (a1 := match shape a0 with [n] => _ | _ => a0 end). clearbody a1.
  destruct (negb (dtype_names a1) && negb (length (shape a1) =? 2)%nat); [done|].
  destruct (shape a1) as [|nr [|nc [|? ?]]] eqn:Hsh; try done.
  destruct (BoundRecArr_new smp0 _ _ _) as [bs|] eqn:Hbs; simpl; [|done].
  destruct (BoundRecArr_new var0 _ _ _) as [bv|] eqn:Hbv; simpl; [|done].
  destruct (_check_dimensions a1 (arr bs) (arr bv)) as [[]|] eqn:Hck;
    simpl; [|done].
  apply check_dimensions_Ok in Hck. rewrite Hsh in Hck.
  injection Hck as Hnr Hnc.
  apply BoundRecArr_new_wf in Hbs as (Hwfs & Hps & Hns).
  apply BoundRecArr_new_wf in Hbv as (Hwfv & Hpv & Hnv).
  match goal with
  | |- context [alloc_obj ?hh ?cc] =>
      assert (owned (alloc_obj hh cc) (length (objs h)) nr nc) as Ho
  end.
  { eexists. split; [simpl; apply list_lookup_middle; done|].
    split; [done|]. simpl. split.
    - exists bs. split; [|done].
      apply lookup_app_l_Some. by apply list_lookup_middle.
    - exists bv. split; [|done].
      apply list_lookup_middle. by rewrite length_app, Nat.add_1_r. }
  destruct ddata as [d|]; simpl.
  - destruct (init_items _ _ d) as [h4|] eqn:Hit; simpl; [|done].
    intros [= <- <-]. exists nr, nc. by eapply init_items_owned.
  - intros [= <- <-]. by exists nr, nc.
Qed.

Lemma init_owned h ddata X0 smp0 var0 vis0 meta d' h' a :
  AnnData_init h ddata X0 smp0 var0 vis0 meta = (d', Ok (h', a)) →
  ∃ nr nc, owned h' a nr nc.
Proof.
  unfold AnnData_init. destruct ddata as [d|].
  - destruct (init_legacy d X0 smp0 var0) as [[[d1 X1] smp1] var1].
    intros [= _ H]. by eapply init_body_owned.
  - intros [= _ H]. by eapply init_body_owned.
Qed.

(** ** Attribute assignment *)







(** ** Indexing the test matrix *)


(** ** Deletion *)

Lemma ndarray_delitem_raises a r c : is_ok (ndarray_delitem a r c) = false.
Proof. unfold ndarray_delitem. by destruct (kind a). Qed.

(** C8.  Deletion is specified to remove the addressed region of the
    matrix, and the addressed rows or columns of the tables when the other
    component is [:].  The code does not: [del container[index]] never
    deletes anything: the matrix refuses item deletion, whatever the
    index, so the method raises before it reaches the tables.  In
    particular [del mat[0, :]] on the 2x3 container raises. *)
Theorem C8_delitem_always_raises :
  (∀ h self i, is_ok (AnnData_delitem h self i) = false) ∧
  AnnData_delitem test_mat 0 (ITuple [IInt 0; slice_all])
  = Raise (ValueError "cannot delete array elements").
Proof.
  split; [|reflexivity].
  intros h self i. unfold AnnData_delitem.
  destruct (get_obj h self) as [c|]; simpl; [|done].
  destruct (_unpack_index i) as [[samp feat]|]; simpl; [|done].
  pose proof (ndarray_delitem_raises (X c) samp feat) as H.
  by destruct (ndarray_delitem (X c) samp feat).
Qed.

(** ** The legacy bundle *)

Section take_facts.
Context {V : Type}.
Implicit Types (d : list (string * V)) (k : string).

Lemma dict_mem_del_eq k d : dict_mem k (dict_del k d) = false.
Proof. unfold dict_mem. by rewrite dict_get_del_eq. Qed.

Lemma dict_mem_del_ne k k' d :
  k ≠ k' → dict_mem k' (dict_del k d) = dict_mem k' d.
Proof. intros H. unfold dict_mem. by rewrite dict_get_del_ne. Qed.

Lemma take_key_mem key d : dict_mem key (take_key key d) = false.
Proof.
  unfold take_key. destruct (dict_mem key d) eqn:E; [|done].
  apply dict_mem_del_eq.
Qed.

Lemma take_key_get key k d :
  key ≠ k → dict_get k (take_key key d) = dict_get k d.
Proof.
  intros H. unfold take_key. destruct (dict_mem key d); [|done].
  by apply dict_get_del_ne.
Qed.

Lemma take_alias_mem_key key alias d :
  key ≠ alias → dict_mem key (take_alias key alias d) = false.
Proof.
  intros H. unfold take_alias. destruct (dict_mem key d) eqn:E.
  - apply dict_mem_del_eq.
  - unfold dict_mem in *. by rewrite take_key_get.
Qed.

Lemma take_alias_mem_alias key alias d :
  key ≠ alias →
  dict_mem alias (take_alias key alias d)
  = dict_mem key d && dict_mem alias d.
Proof.
  intros H. unfold take_alias. destruct (dict_mem key d) eqn:E; simpl.
  - by apply dict_mem_del_ne.
  - apply take_key_mem.
Qed.

Lemma take_alias_get key alias k d :
  key ≠ k → alias ≠ k →
  dict_get k (take_alias key alias d) = dict_get k d.
Proof.
  intros H1 H2. unfold take_alias. destruct (dict_mem key d).
  - by apply dict_get_del_ne.
  - by apply take_key_get.
Qed.

Lemma take_key_mem_other key k d :
  key ≠ k → dict_mem k (take_key key d) = dict_mem k d.
Proof. intros H. unfold dict_mem. by rewrite take_key_get. Qed.

Lemma take_alias_mem_other key alias k d :
  key ≠ k → alias ≠ k →
  dict_mem k (take_alias key alias d) = dict_mem k d.
Proof. intros H1 H2. unfold dict_mem. by rewrite take_alias_get. Qed.
End take_facts.

Lemma init_legacy_bundle d X0 smp0 var0 :
  (init_legacy d X0 smp0 var0).1.1.1
  = take_alias "col_names" "var_names"
      (take_alias "row_names" "smp_names" (take_key "X" d)).
Proof.
  unfold init_legacy, take_alias, take_key, dict_mem.
  destruct (dict_get "X" d); simpl;
    (destruct (dict_get "row_names" _); simpl;
     [|destruct (dict_get "smp_names" _); simpl]);
    (destruct (dict_get "col_names" _); simpl;
     [|destruct (dict_get "var_names" _); simpl]); reflexivity.
Qed.

(** C10, as amended.  The constructor edits the caller's bundle in place:
    ['X'] is deleted; of the two spellings of the row labels,
    ['row_names'] is deleted if it is there, and ['smp_names'] only when
    ['row_names'] is absent; likewise ['col_names'] before ['var_names'].
    A shadowed spelling and every other key stay in the bundle. *)
Theorem C10_legacy_keys_deleted h d X0 smp0 var0 vis0 meta :
  ∃ d', (AnnData_init h (Some d) X0 smp0 var0 vis0 meta).1 = Some d' ∧
    dict_mem "X" d' = false ∧
    dict_mem "row_names" d' = false ∧
    dict_mem "col_names" d' = false ∧
    dict_mem "smp_names" d' = dict_mem "row_names" d && dict_mem "smp_names" d ∧
    dict_mem "var_names" d' = dict_mem "col_names" d && dict_mem "var_names" d ∧
    ∀ k, k ∉ ["X"; "row_names"; "smp_names"; "col_names"; "var_names"] →
         dict_get k d' = dict_get k d.
Proof.
  eexists. split.
  { unfold AnnData_init.
    pose proof (init_legacy_bundle d X0 smp0 var0) as H.
    destruct (init_legacy d X0 smp0 var0) as [[[d1 X1] smp1] var1].
    simpl in *. by rewrite H. }
  repeat split.
  - by rewrite !take_alias_mem_other, take_key_mem.
  - by rewrite take_alias_mem_other, take_alias_mem_key.
  - by rewrite take_alias_mem_key.
  - by rewrite take_alias_mem_other, take_alias_mem_alias,
      !take_key_mem_other.
  - by rewrite take_alias_mem_alias, !take_alias_mem_other,
      !take_key_mem_other.
  - intros k Hk. rewrite !not_elem_of_cons in Hk.
    destruct Hk as (H1 & H2 & H3 & H4 & H5 & _).
    by rewrite !take_alias_get, take_key_get.
Qed.

Lemma C10_legacy_keys_deleted_witness :
  ∃ d', (AnnData_init empty_heap (Some legacy_example) ONone SrcNone SrcNone
           None []).1 = Some d' ∧
        dict_mem "X" d' = false ∧ dict_mem "row_names" d' = false ∧
        dict_mem "smp_names" d' = true ∧
        dict_get "other" d' = dict_get "other" legacy_example.
Proof.
  destruct (C10_legacy_keys_deleted empty_heap legacy_example ONone SrcNone
              SrcNone None [])
    as (d' & Hd & HX & Hrow & _ & Hsmp & _ & Hk).
  exists d'. repeat split; try done.
  apply Hk. vm_compute. intros H.
  repeat (apply elem_of_cons in H as [H|H]; [discriminate H|]).
  by apply elem_of_nil in H.
Defined.

(** C10, as stated, fails: with both ['row_names'] and ['smp_names'] in
    the bundle, the construction succeeds and ['smp_names'] is still in
    the caller's mapping. *)
Lemma C10_shadowed_alias_survives :
  ∃ r, AnnData_init empty_heap (Some legacy_example) ONone SrcNone SrcNone
         None []
       = (Some [("smp_names", OList [3; 4]%Z)], Ok r).
Proof. eexists. vm_compute. reflexivity. Qed.

(** ** New columns *)

Lemma parent_bool_live h p c n :
  objs h !! p = Some c → shape (X c) !! 0 = Some n → n ≠ 0 →
  parent_bool h (Some p) = Ok true.
Proof.
  intros Hc Hn Hne. unfold parent_bool, AnnData_len, shape_at.
  rewrite (get_obj_Some _ _ _ Hc). simpl. rewrite Hn. simpl.
  by destruct n.
Qed.

(** A new column that is longer than the table is refused, and the
    message names both lengths. *)
Lemma setitem_new_column_too_long h t b p c n k v :
  tables h !! t = Some b → _parent b = Some p →
  objs h !! p = Some c → shape (X c) !! 0 = Some n → n ≠ 0 →
  k ∉ rec_names (arr b) → (rec_len (arr b) < length v)%nat →
  BoundRecArr_setitem h t k v
  = Raise (ValueError ("New column has too many entries ("
             +:+ show_nat (length v) +:+ " > "
             +:+ show_nat (rec_len (arr b)) +:+ ")")).
Proof.
  intros Ht Hp Hc Hn Hne Hk Hlen. unfold BoundRecArr_setitem.
  rewrite (get_table_Some _ _ _ Ht). simpl. rewrite Hp.
  rewrite (parent_bool_live _ _ _ _ Hc Hn Hne). simpl.
  apply dict_mem_false in Hk. rewrite Hk. simpl.
  by destruct (Nat.ltb_spec (rec_len (arr b)) (length v)); [|lia].
Qed.

(** A new column that fits is appended to a copy of the table, and the
    copy is attached to the owner through [__setattr__]; the old table
    stays as it was. *)
Lemma setitem_new_column_appends h t b p c n k v :
  tables h !! t = Some b → _parent b = Some p → rec_wf (arr b) →
  objs h !! p = Some c → shape (X c) !! 0 = Some n → n ≠ 0 →
  k ∉ rec_names (arr b) → (length v ≤ rec_len (arr b))%nat →
  let new := {| arr := {| rec_len := rec_len (arr b);
                          fields := fields (arr b)
                                    ++ [(k, pad_to (rec_len (arr b)) v)] |};
                _parent := Some p; _name_col := _name_col b |} in
  let attr := if _name_col b =? SMP_NAMES then AxSmp else AxVar in
  let h1 := (alloc_table h new).1 in
  BoundRecArr_setitem h t k v = AnnData_setattr h1 p attr (Bound (length (tables h)))
  ∧ BoundRecArr_setitem h t k v
    = Ok (set_obj h1 p (with_axis_table attr (length (tables h)) c))
  ∧ tables h1 !! t = Some b
  ∧ tables h1 !! length (tables h) = Some new.
Proof.
  intros Ht Hp Hwf Hc Hn Hne Hk Hlen new attr h1.
  assert (BoundRecArr_setitem h t k v
          = AnnData_setattr h1 p attr (Bound (length (tables h)))) as Heq.
  { unfold BoundRecArr_setitem.
    rewrite (get_table_Some _ _ _ Ht). simpl. rewrite Hp.
    rewrite (parent_bool_live _ _ _ _ Hc Hn Hne). simpl.
    apply dict_mem_false in Hk. rewrite Hk. simpl.
    destruct (Nat.ltb_spec (rec_len (arr b)) (length v)); [lia|].
    rewrite BoundRecArr_new_copy
      by (apply append_fields_wf; [done..|by apply dict_mem_false]).
    simpl. by rewrite append_fields_eq. }
  split; [done|]. rewrite Heq. split; [by apply setattr_bound|].
  split; [by apply lookup_app_l_Some | by apply list_lookup_middle].
Qed.

(** C4.  A write of a new column to a table bound to a container is
    specified to append the column through the owner, or to report the
    two lengths when the value is too long.  The code does so only for an
    owner with at least one row: the first branch of [__setitem__] asks
    for the truth value of the owner, and a container is false when its
    matrix has no rows.  On the container over
    [np.zeros((0, 3))], whose column table has three rows,
    [a.var['new'] = [1, 2, 3]] is not appended but written in place, and
    fails because there is no such field; [a.smp['new'] = [1, 2]] fails
    the same way instead of reporting the two lengths. *)
Theorem C4_empty_owner_refuses_column :
  ∃ c bs bv,
    objs test_empty !! 0 = Some c ∧
    tables test_empty !! smp c = Some bs ∧ _parent bs = Some 0 ∧
    tables test_empty !! var c = Some bv ∧ _parent bv = Some 0 ∧
    rec_len (arr bs) = 0 ∧ rec_len (arr bv) = 3 ∧
    BoundRecArr_setitem test_empty (var c) "new" [1; 2; 3]%Z
    = Raise (ValueError "no field of name new") ∧
    BoundRecArr_setitem test_empty (smp c) "new" [1; 2]%Z
    = Raise (ValueError "no field of name new").
Proof. eexists _, _, _. repeat split; vm_compute; reflexivity. Qed.

(** ** The message of a refused assignment *)

(** An assignment whose wrapped table has the wrong length is refused. *)
Lemma setattr_raw_length_mismatch h self ax src c names b n :
  objs h !! self = Some c → axis_names h c ax = Ok names →
  BoundRecArr_new src (names_col_of ax) (Some self) None = Ok b →
  shape (X c) !! dim_of ax = Some n → rec_len (arr b) ≠ n →
  is_ok (AnnData_setattr h self ax (Raw src)) = false.
Proof.
  intros Hc Hnames Hb Hn Hne. unfold AnnData_setattr.
  rewrite (get_obj_Some _ _ _ Hc). simpl. rewrite Hnames. simpl.
  rewrite Hb. simpl. unfold shape_at at 1. rewrite Hn. simpl.
  destruct (Nat.eqb_spec (rec_len (arr b)) n); [done|]. simpl.
  destruct (source_len src); simpl; [|done].
  by destruct (AnnData_len c).
Qed.

(** C6.  A refused assignment is specified to name the length of the
    supplied table and the size of the matrix axis.  The code does not:
    the message is formatted from [len(value_orig)] and [len(self)], the
    number of keys of the mapping and the number of rows of the matrix,
    whatever the axis.  On the 2x3
    container, [mat.smp = dict(a=[1, 2, 3])] wraps into a table of length
    3 and is refused with "length 1 instead of 2"; assigning a record
    array of length 2 to [mat.var], where 3 is expected, is refused with
    "length 2 instead of 2". *)
Theorem C6_message_names_other_lengths :
  (∃ b, BoundRecArr_new (SrcMap [("a", [1; 2; 3]%Z)]) SMP_NAMES (Some 0) None
        = Ok b ∧ rec_len (arr b) = 3) ∧
  AnnData_setattr test_mat 0 AxSmp (Raw (SrcMap [("a", [1; 2; 3]%Z)]))
  = Raise (ValueError
      "New value for 'smp' was converted to a reacarray of length 1 instead of 2") ∧
  AnnData_setattr test_mat 0 AxVar
    (Raw (SrcRec {| rec_len := 2; fields := [("var_names", [7; 8]%Z)] |}))
  = Raise (ValueError
      "New value for 'var' was converted to a reacarray of length 2 instead of 2").
Proof.
  split; [eexists; split; vm_compute; reflexivity|].
  split; vm_compute; reflexivity.
Qed.

(** ** Serialization *)

(** C7.  [to_dict] is specified to return, among others, sub-mappings
    with exactly the annotation columns other than the labels.  The code
    does not: [smp_keys] and [var_keys] drop the first name of the table,
    but a table made from a mapping without labels has its label column
    last.  For the container
    of [test_get_subset_meta], whose tables have the annotation columns
    ['Smp'] and ['Feat'], both sub-mappings of [to_dict] are empty. *)
Theorem C7_to_dict_loses_first_column :
  ∃ c bs bv d,
    objs test_mat_meta !! 0 = Some c ∧
    tables test_mat_meta !! smp c = Some bs ∧
    tables test_mat_meta !! var c = Some bv ∧
    columns bs = ["Smp"] ∧ columns bv = ["Feat"] ∧
    to_dict test_mat_meta 0 = Ok d ∧
    dict_get "smp" d = Some (ODict []) ∧
    dict_get "var" d = Some (ODict []).
Proof. eexists _, _, _, _. repeat split; vm_compute; reflexivity. Qed.

(** Where the label column comes first, as in a container built from a
    legacy bundle, the sub-mapping has the annotation columns. *)
Example to_dict_label_first :
  ∃ d, to_dict test_legacy 0 = Ok d ∧
       dict_get "smp" d = Some (ODict [("Smp", [1; 2]%Z)]) ∧
       dict_get "k" d = Some (OInt 1).
Proof. eexists. repeat split; vm_compute; reflexivity. Qed.

Lemma foldl_dict_set_other {V} k (m d0 : list (string * V)) :
  k ∉ dict_keys m →
  dict_get k (foldl (fun d kv => dict_set kv.1 kv.2 d) d0 m) = dict_get k d0.
Proof.
  revert d0. induction m as [|[k0 v0] m IH]; intros d0 Hk; [done|].
  apply not_elem_of_cons in Hk as [Hne Hk]. simpl in *.
  rewrite IH by done. by apply dict_get_set_ne.
Qed.

Lemma foldl_dict_set_get {V} k v (m d0 : list (string * V)) :
  NoDup (dict_keys m) → dict_get k m = Some v →
  dict_get k (foldl (fun d kv => dict_set kv.1 kv.2 d) d0 m) = Some v.
Proof.
  revert d0. induction m as [|[k0 v0] m IH]; intros d0 Hnd; [done|].
  apply NoDup_cons in Hnd as [Hk0 Hnd]. simpl.
  destruct (String.eqb_spec k k0) as [->|Hne].
  - intros [= ->]. rewrite foldl_dict_set_other by done.
    apply dict_get_set_eq.
  - by apply IH.
Qed.

(** Every key of the dataset metadata is in the result of [to_dict], with
    its value. *)
Lemma to_dict_meta h self c d k v :
  objs h !! self = Some c → NoDup (dict_keys (_meta c)) →
  to_dict h self = Ok d → dict_get k (_meta c) = Some v →
  dict_get k d = Some v.
Proof.
  intros Hc Hnd. unfold to_dict. rewrite (get_obj_Some _ _ _ Hc). simpl.
  destruct (get_table h (smp c)); simpl; [|done].
  destruct (get_table h (var c)); simpl; [|done].
  destruct (smp_keys h c); simpl; [|done].
  destruct (annotation_dict _ _ _); simpl; [|done].
  destruct (var_keys h c); simpl; [|done].
  destruct (annotation_dict _ _ _); simpl; [|done].
  destruct (axis_names h c AxSmp); simpl; [|done].
  destruct (axis_names h c AxVar); simpl; [|done].
  intros [= <-] Hk. by apply foldl_dict_set_get.
Qed.

(** ** Labels under assignment *)

Lemma dict_get_app {V} k (d1 d2 : list (string * V)) :
  dict_get k (d1 ++ d2)
  = match dict_get k d1 with Some v => Some v | None => dict_get k d2 end.
Proof.
  induction d1 as [|[k' v'] d1 IH]; simpl; [done|].
  by destruct (k =? k').
Qed.

Lemma rec_getfield_Some r k c :
  dict_get k (fields r) = Some c → rec_getfield r k = Ok c.
Proof. unfold rec_getfield. by intros ->. Qed.




(** ** Positions selected by an index *)






(** ** Writing into the matrix *)











(** ** Transposition *)




















(** ** Every slice is a container in good shape *)

Lemma init_body_addr h ddata X0 smp0 var0 vis0 meta h' a :
  init_body h ddata X0 smp0 var0 vis0 meta = Ok (h', a) →
  a = length (objs h).
Proof.
  unfold init_body. destruct X0 as [| | | |a0|]; try done.
  destruct (List.find _ _); simpl; [|done].
  destruct (_ && _); [done|].
  destruct (shape _) as [|nr [|nc [|? ?]]]; try done.
  destruct (BoundRecArr_new smp0 _ _ _); simpl; [|done].
  destruct (BoundRecArr_new var0 _ _ _); simpl; [|done].
  destruct (_check_dimensions _ _ _); simpl; [|done].
  destruct (match ddata with Some d => _ | None => _ end); simpl; [|done].
  by intros [= _ <-].
Qed.

Lemma init_addr h ddata X0 smp0 var0 vis0 meta d' h' a :
  AnnData_init h ddata X0 smp0 var0 vis0 meta = (d', Ok (h', a)) →
  a = length (objs h).
Proof.
  unfold AnnData_init. destruct ddata as [d|].
  - destruct (init_legacy d X0 smp0 var0) as [[[d1 X1] smp1] var1].
    intros [= _ H]. by eapply init_body_addr.
  - intros [= _ H]. by eapply init_body_addr.
Qed.

Lemma call_owned h X0 smp0 var0 vis0 kwargs kwargs' h' a :
  AnnData_call h X0 smp0 var0 vis0 kwargs = (kwargs', Ok (h', a)) →
  a = length (objs h) ∧ ∃ nr nc, owned h' a nr nc.
Proof.
  unfold AnnData_call. destruct (existsb _ _); [done|].
  destruct (dict_get "ddata" kwargs) as [[| | | | |m]|].
  - destruct (AnnData_init h None X0 smp0 var0 vis0 _) as [d r] eqn:Hi.
    simpl. intros [= _ ->]. split; [by eapply init_addr | by eapply init_owned].
  - done.
  - done.
  - done.
  - done.
  - destruct (AnnData_init h (Some _) X0 smp0 var0 vis0 _) as [d r] eqn:Hi.
    intros [= _ ->]. split; [by eapply init_addr | by eapply init_owned].
  - destruct (AnnData_init h None X0 smp0 var0 vis0 _) as [d r] eqn:Hi.
    simpl. intros [= _ ->]. split; [by eapply init_addr | by eapply init_owned].
Qed.

Lemma owned_set_meta_ne h self a nr nc m :
  self ≠ a → owned h a nr nc → owned (set_meta h self m) a nr nc.
Proof.
  intros Hne (c & Hc & H). unfold set_meta.
  destruct (objs h !! self) as [c0|]; [|by exists c].
  exists c. split; [|done]. simpl. by rewrite list_lookup_insert_ne.
Qed.

(** Whatever the index, the container [__getitem__] returns has a row
    table as long as its matrix has rows and a column table as long as it
    has columns. *)
Lemma getitem_shape_invariant h self i h' a :
  AnnData_getitem h self i = (h', Ok (ItemData a)) → shape_invariant h' a.
Proof.
  unfold AnnData_getitem.
  destruct (get_obj h self) as [c|] eqn:Hc; [|done].
  apply get_obj_Ok in Hc.
  assert (self < length (objs h))%nat as Hlt by (by eapply lookup_lt_Some).
  assert (∀ X' smp_meta var_meta,
            (let '(h0, r) :=
               after_call h self
                 (AnnData_call h (OArray X') (SrcRec smp_meta)
                    (SrcRec var_meta) (Some (vis c)) (_meta c)) in
             (h0, a0 ← r; Ok (ItemData a0))) = (h', Ok (ItemData a)) →
            shape_invariant h' a) as Hcall.
  { intros X' sm vm. unfold after_call.
    destruct (AnnData_call _ _ _ _ _ _) as [kw [[h1 a1]|]] eqn:Hcl; simpl;
      [|done].
    intros [= <- <-]. apply call_owned in Hcl as [-> (nr & nc & Ho)].
    eapply owned_shape_invariant, owned_set_meta_ne; [lia | done]. }
  destruct i as [[z|x y z|l|s]|l];
    try (destruct (getitem_pieces h c _) as [[[X' sm] vm]|]; [|done];
         by apply Hcall).
  destruct (dict_get s (_meta c)); done.
Qed.

(** * Further properties of the code *)

(** ** Tables as [BoundRecArr.__new__] builds them *)

Lemma broadcast_cols_get n cols cols' k c :
  broadcast_cols n cols = Ok cols' → dict_get k cols = Some c →
  ∃ c', dict_get k cols' = Some c' ∧ broadcast_to n c = Ok c'.
Proof.
  revert cols'. induction cols as [|[k0 c0] cols IH]; intros cols'; [done|].
  unfold broadcast_cols in *. simpl.
  destruct (broadcast_to n c0) as [c0'|] eqn:H0; simpl; [|done].
  destruct (mapM _ cols) as [rest|]; simpl; [|done].
  intros [= <-]. simpl. destruct (k =? k0).
  - intros [= <-]. by exists c0'.
  - by apply IH.
Qed.

Lemma broadcast_cols_fail n cols k c :
  (k, c) ∈ cols → is_ok (broadcast_to n c) = false →
  is_ok (broadcast_cols n cols) = false.
Proof.
  intros Hin Hc. induction cols as [|[k0 c0] cols IH].
  - by apply elem_of_nil in Hin.
  - unfold broadcast_cols in *. simpl.
    apply elem_of_cons in Hin as [[= <- <-]|Hin].
    + by destruct (broadcast_to n c).
    + destruct (broadcast_to n c0); simpl; [|done].
      specialize (IH Hin). by destruct (mapM _ cols).
Qed.

Lemma source_cols_label src name_col nr_row cols :
  source_cols src name_col nr_row = Ok cols →
  name_col ∈ dict_keys cols ∨ ∃ r, src = SrcRec r.
Proof.
  destruct src as [|r|m|[|k]|tp]; simpl; try done.
  - destruct nr_row; [|done]. intros [= <-]. left. simpl. left.
  - intros _. right. by exists r.
  - destruct (dict_mem name_col m) eqn:Hm.
    + intros [= <-]. left. by apply dict_mem_true.
    + destruct m as [|[k0 c0] m]; [done|]. intros [= <-]. left.
      apply dict_mem_true. unfold dict_mem.
      change ((k0, c0) :: m ++ [(name_col, arange (length c0))])
        with (((k0, c0) :: m) ++ [(name_col, arange (length c0))]).
      rewrite dict_get_app.
      destruct (dict_get name_col ((k0, c0) :: m)); [done|].
      simpl. by rewrite String.eqb_refl.
Qed.

(** X1.  Whatever the source, a table that [BoundRecArr.__new__] returns
    is rectangular: it has at least one column, no column name twice, and
    every column is as long as the table.  It carries the owner and the
    label name it was given, and it has a label column unless the source
    was a record array (which is copied as it is). *)
Theorem new_table_is_rectangular src name_col parent nr_row b :
  BoundRecArr_new src name_col parent nr_row = Ok b →
  fields (arr b) ≠ [] ∧ NoDup (rec_names (arr b)) ∧
  Forall (fun kv => length kv.2 = rec_len (arr b)) (fields (arr b)) ∧
  _parent b = parent ∧ _name_col b = name_col ∧
  (name_col ∈ rec_names (arr b) ∨ ∃ r, src = SrcRec r).
Proof.
  intros H. pose proof (BoundRecArr_new_wf _ _ _ _ _ H) as ((H1 & H2 & H3) & H4 & H5).
  repeat (split; [done|]).
  rewrite BoundRecArr_new_eq in H.
  destruct (source_cols src name_col nr_row) as [cols|] eqn:Hs; simpl in H; [|done].
  destruct (has_dup (dict_keys cols)); [done|].
  destruct cols as [|[k0 c0] cols]; [done|].
  destruct (broadcast_cols _ _) as [cols'|] eqn:Hb; simpl in H; [|done].
  injection H as <-. unfold rec_names. simpl.
  rewrite (broadcast_cols_keys _ _ _ Hb). by eapply source_cols_label.
Qed.

Lemma new_table_is_rectangular_witness :
  ∃ b, BoundRecArr_new (SrcMap [("a", [1; 2; 3]%Z); ("b", [7]%Z)]) SMP_NAMES
         None None = Ok b ∧
       rec_len (arr b) = 3 ∧
       Forall (fun kv => length kv.2 = 3) (fields (arr b)).
Proof.
  destruct (BoundRecArr_new (SrcMap [("a", [1; 2; 3]%Z); ("b", [7]%Z)])
              SMP_NAMES None None) as [b|] eqn:H; [|discriminate H].
  destruct (new_table_is_rectangular _ _ _ _ _ H) as (_ & _ & Hl & _).
  exists b. split; [reflexivity|].
  assert (rec_len (arr b) = 3) as Hn
    by (vm_compute in H; injection H as <-; reflexivity).
  split; [exact Hn|]. by rewrite <- Hn.
Defined.

(** X2.  A table made from a mapping of equally long columns has these
    columns in the order of the mapping.  If the mapping has no entry for
    the label name, the labels 0, 1, ..., n-1 are added as the last
    column; if it has one, nothing is added. *)
Theorem new_table_from_mapping m name_col parent nr_row n :
  m ≠ [] → NoDup (dict_keys m) →
  Forall (fun kv => length kv.2 = n) m →
  ∃ b, BoundRecArr_new (SrcMap m) name_col parent nr_row = Ok b ∧
       rec_len (arr b) = n ∧
       (name_col ∈ dict_keys m → fields (arr b) = m) ∧
       (name_col ∉ dict_keys m →
          fields (arr b) = m ++ [(name_col, arange n)]).
Proof.
  intros Hne Hnd Hlen.
  rewrite (BoundRecArr_new_map m name_col parent nr_row n) by done.
  eexists. split; [done|]. simpl. split; [done|]. split.
  - intros H. apply dict_mem_true in H. by rewrite H.
  - intros H. apply dict_mem_false in H. by rewrite H.
Qed.

Lemma new_table_from_mapping_witness :
  ∃ b, BoundRecArr_new (SrcMap [("Smp", [65; 66]%Z)]) SMP_NAMES None None
       = Ok b ∧
       fields (arr b) = [("Smp", [65; 66]%Z); (SMP_NAMES, [0; 1]%Z)].
Proof.
  destruct (new_table_from_mapping [("Smp", [65; 66]%Z)] SMP_NAMES None None 2)
    as (b & Hb & _ & _ & Hadd);
    [discriminate | apply NoDup_singleton | repeat constructor |].
  exists b. split; [exact Hb|]. apply Hadd.
  apply dict_mem_false. reflexivity.
Defined.

(** X3.  The columns of a mapping must fit the first one: a column of
    length one is repeated along the table, and a column of any other
    length that differs from the first makes the construction fail; so
    does an empty mapping. *)
Theorem new_table_fits_columns_to_first m k0 c0 rest name_col parent nr_row :
  m = (k0, c0) :: rest →
  (∀ k x b, BoundRecArr_new (SrcMap m) name_col parent nr_row = Ok b →
            dict_get k m = Some [x] →
            dict_get k (fields (arr b)) = Some (replicate (length c0) x)) ∧
  (∀ k c, (k, c) ∈ m → length c ≠ length c0 → length c ≠ 1 →
          is_ok (BoundRecArr_new (SrcMap m) name_col parent nr_row) = false) ∧
  BoundRecArr_new (SrcMap []) name_col parent nr_row
  = Raise (IndexError "list index out of range").
Proof.
  intros ->. split; [|split; [|done]].
  - intros k x b H Hk. rewrite BoundRecArr_new_eq in H. simpl in H.
    set (cols := if dict_mem name_col ((k0, c0) :: rest)
                 then (k0, c0) :: rest
                 else ((k0, c0) :: rest) ++ [(name_col, arange (length c0))]).
    assert (source_cols (SrcMap ((k0, c0) :: rest)) name_col nr_row = Ok cols)
      as Hs by (subst cols; simpl; by destruct (dict_mem _ _)).
    simpl in Hs. rewrite Hs in H. simpl in H.
    destruct (has_dup (dict_keys cols)); [done|].
    assert (∃ tl, cols = (k0, c0) :: tl) as [tl Hcols]
      by (subst cols; destruct (dict_mem _ _); eauto).
    rewrite Hcols in H.
    destruct (broadcast_cols _ _) as [cols'|] eqn:Hb; simpl in H; [|done].
    injection H as <-. simpl.
    assert (dict_get k ((k0, c0) :: tl) = Some [x]) as Hk'.
    { rewrite <- Hcols. subst cols. destruct (dict_mem _ _); [done|].
      rewrite dict_get_app. by rewrite Hk. }
    destruct (broadcast_cols_get _ _ _ _ _ Hb Hk') as (c' & -> & Hc').
    f_equal. unfold broadcast_to in Hc'. simpl in Hc'.
    destruct (length c0) as [|[|n]]; by injection Hc' as <-.
  - intros k c Hin Hn H1.
    set (cols := if dict_mem name_col ((k0, c0) :: rest)
                 then (k0, c0) :: rest
                 else ((k0, c0) :: rest) ++ [(name_col, arange (length c0))]).
    assert (source_cols (SrcMap ((k0, c0) :: rest)) name_col nr_row = Ok cols)
      as Hs by (subst cols; simpl; by destruct (dict_mem _ _)).
    rewrite BoundRecArr_new_eq, Hs.
    cbn [mbind result_bind]. destruct (has_dup (dict_keys cols)); [done|].
    assert (∃ tl, cols = (k0, c0) :: tl) as [tl Hcols]
      by (subst cols; destruct (dict_mem _ _); eauto).
    assert ((k, c) ∈ cols) as Hin'.
    { subst cols. destruct (dict_mem _ _); [done|].
      apply elem_of_app. by left. }
    rewrite Hcols in *.
    assert (is_ok (broadcast_cols (length c0) ((k0, c0) :: tl)) = false) as Hf.
    { eapply broadcast_cols_fail; [exact Hin'|]. unfold broadcast_to.
      destruct (Nat.eqb_spec (length c) (length c0)); [done|].
      by destruct c as [|x [|y c]]. }
    by destruct (broadcast_cols _ _).
Qed.

Lemma new_table_fits_columns_to_first_witness :
  (∃ b, BoundRecArr_new (SrcMap [("a", [1; 2; 3]%Z); ("b", [7]%Z)]) SMP_NAMES
          None None = Ok b ∧
        dict_get "b" (fields (arr b)) = Some [7; 7; 7]%Z) ∧
  is_ok (BoundRecArr_new (SrcMap [("a", [1; 2; 3]%Z); ("b", [7; 8]%Z)])
           SMP_NAMES None None) = false.
Proof.
  split.
  - destruct (BoundRecArr_new (SrcMap [("a", [1; 2; 3]%Z); ("b", [7]%Z)])
                SMP_NAMES None None) as [b|] eqn:H; [|discriminate H].
    exists b. split; [reflexivity|].
    apply (proj1 (new_table_fits_columns_to_first _ "a" [1; 2; 3]%Z
                    [("b", [7]%Z)] SMP_NAMES None None eq_refl) "b" 7%Z b H).
    reflexivity.
  - apply (proj1 (proj2 (new_table_fits_columns_to_first _ "a" [1; 2; 3]%Z
                           [("b", [7; 8]%Z)] SMP_NAMES None None eq_refl))
             "b" [7; 8]%Z).
    + right. left.
    + simpl. lia.
    + simpl. lia.
Defined.

(** X4.  A record array given as source is copied column by column and
    nothing is added: unlike a mapping, a record array without a label
    column gives a table without labels, whose label column cannot be
    read. *)
Theorem new_table_copies_record_array r name_col parent nr_row :
  rec_wf r →
  ∃ b, BoundRecArr_new (SrcRec r) name_col parent nr_row = Ok b ∧
       arr b = r ∧
       (name_col ∉ rec_names r →
          rec_getfield (arr b) name_col
          = Raise (ValueError ("no field of name " +:+ name_col))).
Proof.
  intros Hwf. rewrite BoundRecArr_new_copy by done.
  eexists. split; [done|]. simpl. split; [done|].
  intros Hn. unfold rec_getfield.
  by apply dict_get_None in Hn as ->.
Qed.

Lemma new_table_copies_record_array_witness :
  ∃ b, BoundRecArr_new
         (SrcRec {| rec_len := 2; fields := [("a", [5; 6]%Z)] |})
         SMP_NAMES None None = Ok b ∧
       fields (arr b) = [("a", [5; 6]%Z)] ∧
       is_ok (rec_getfield (arr b) SMP_NAMES) = false.
Proof.
  destruct (new_table_copies_record_array
              {| rec_len := 2; fields := [("a", [5; 6]%Z)] |}
              SMP_NAMES None None)
    as (b & Hb & Harr & Hno);
    [split; [discriminate | split;
       [apply NoDup_singleton | repeat constructor]] |].
  exists b. split; [exact Hb|]. split; [by rewrite Harr|].
  rewrite Hno; [reflexivity|]. apply dict_mem_false. reflexivity.
Defined.

Lemma filter_label_app (l : list string) name :
  List.filter (fun c => negb (c =? name)) (l ++ [name])
  = List.filter (fun c => negb (c =? name)) l.
Proof.
  rewrite List.filter_app. simpl. rewrite String.eqb_refl. simpl.
  apply app_nil_r.
Qed.

(** X5.  [columns] of a table made from a mapping lists the keys of the
    mapping other than the label name, in the order of the mapping: the
    synthesized label column never shows up. *)
Theorem columns_of_mapping m name_col parent nr_row n :
  m ≠ [] → NoDup (dict_keys m) →
  Forall (fun kv => length kv.2 = n) m →
  ∃ b, BoundRecArr_new (SrcMap m) name_col parent nr_row = Ok b ∧
       columns b
       = List.filter (fun c => negb (c =? name_col)) (dict_keys m).
Proof.
  intros Hne Hnd Hlen.
  rewrite (BoundRecArr_new_map m name_col parent nr_row n) by done.
  eexists. split; [done|]. unfold columns, rec_names. simpl.
  destruct (dict_mem name_col m); [done|].
  unfold dict_keys. rewrite fmap_app. simpl. apply filter_label_app.
Qed.

Lemma columns_of_mapping_witness :
  ∃ b, BoundRecArr_new (SrcMap [("u", [1; 2]%Z); (VAR_NAMES, [8; 9]%Z);
                                ("w", [3; 4]%Z)])
         VAR_NAMES None None = Ok b ∧
       columns b = ["u"; "w"].
Proof.
  destruct (columns_of_mapping
              [("u", [1; 2]%Z); (VAR_NAMES, [8; 9]%Z); ("w", [3; 4]%Z)]
              VAR_NAMES None None 2)
    as (b & Hb & Hc);
    [discriminate | apply has_dup_false; reflexivity | repeat constructor |].
  exists b. split; [exact Hb|]. rewrite Hc. reflexivity.
Defined.

(** ** Column writes on a table *)





(** X7.  On a table whose owner has at least one row, a new column that
    is longer than the table is refused with a [ValueError] that names
    the length of the value and the length of the table. *)
Theorem setitem_new_column_longer_refused h t b p c n key value :
  tables h !! t = Some b → _parent b = Some p →
  objs h !! p = Some c → shape (X c) !! 0 = Some n → n ≠ 0 →
  key ∉ rec_names (arr b) → (rec_len (arr b) < length value)%nat →
  BoundRecArr_setitem h t key value
  = Raise (ValueError ("New column has too many entries ("
             +:+ show_nat (length value) +:+ " > "
             +:+ show_nat (rec_len (arr b)) +:+ ")")).
Proof. apply setitem_new_column_too_long. Qed.

Lemma setitem_new_column_longer_refused_witness :
  BoundRecArr_setitem test_mat 0 "new_col2" [1; 2; 3]%Z
  = Raise (ValueError "New column has too many entries (3 > 2)").
Proof.
  apply (setitem_new_column_longer_refused test_mat 0
           {| arr := {| rec_len := 2; fields := [(SMP_NAMES, [0; 1]%Z)] |};
              _parent := Some 0; _name_col := SMP_NAMES |}
           0 {| storage_type := Array; X := test_matrix; smp := 0; var := 1;
                vis := []; _meta := [] |} 2);
    [reflexivity | reflexivity | reflexivity | reflexivity | discriminate
    | apply dict_mem_false; reflexivity | simpl; lia].
Defined.



(** X9.  A table without an owner never gains a column: writing a key
    that is not a column is refused, whatever the value. *)
Theorem setitem_without_owner_refuses_new_key h t b key value :
  tables h !! t = Some b → _parent b = None →
  key ∉ rec_names (arr b) →
  BoundRecArr_setitem h t key value
  = Raise (ValueError ("no field of name " +:+ key)).
Proof.
  intros Ht Hp Hk. unfold BoundRecArr_setitem.
  rewrite (get_table_Some _ _ _ Ht). simpl. rewrite Hp. simpl.
  apply dict_mem_false in Hk. by rewrite rec_setfield_missing.
Qed.

Lemma setitem_without_owner_refuses_new_key_witness :
  ∃ h t,
    BoundRecArr_create empty_heap (SrcMap [("a", [1; 2]%Z)]) SMP_NAMES
      None None = Ok (h, t) ∧
    BoundRecArr_setitem h t "b" [3; 4]%Z
    = Raise (ValueError "no field of name b").
Proof.
  eexists _, _. split; [vm_compute; reflexivity|].
  eapply (setitem_without_owner_refuses_new_key _ 0
            {| arr := {| rec_len := 2;
                         fields := [("a", [1; 2]%Z); (SMP_NAMES, [0; 1]%Z)] |};
               _parent := None; _name_col := SMP_NAMES |});
    [reflexivity | reflexivity | apply dict_mem_false; reflexivity].
Defined.

(** ** Labels and metadata of a container *)

Lemma axis_names_Some h c ax b names :
  tables h !! axis_table ax c = Some b →
  dict_get (names_col_of ax) (fields (arr b)) = Some names →
  axis_names h c ax = Ok names.
Proof.
  intros Ht Hn. unfold axis_names. rewrite (get_table_Some _ _ _ Ht). simpl.
  by apply rec_getfield_Some.
Qed.



(** X11.  [container[key] = value] with a string key, followed by
    [container[key]], gives the value back; the key is then [in] the
    container and [get] returns the value.  The write touches the
    metadata only: tables, matrix, table references and visualization
    mapping stay, and every other key reads as before. *)
Theorem meta_setitem_then_getitem h self c key val :
  objs h !! self = Some c →
  ∃ h' c',
    AnnData_setitem h self (IOne (IName key)) val = Ok h' ∧
    AnnData_getitem h' self (IOne (IName key)) = (h', Ok (ItemMeta val)) ∧
    objs h' !! self = Some c' ∧ tables h' = tables h ∧
    X c' = X c ∧ smp c' = smp c ∧ var c' = var c ∧ vis c' = vis c ∧
    AnnData_contains c' key = true ∧
    (∀ dflt, AnnData_get c' key dflt = val) ∧
    (∀ k, k ≠ key →
          (AnnData_getitem h' self (IOne (IName k))).2
          = (AnnData_getitem h self (IOne (IName k))).2).
Proof.
  intros Hc. unfold AnnData_setitem. rewrite (get_obj_Some _ _ _ Hc). simpl.
  set (c' := with_meta (dict_set key val (_meta c)) c).
  assert (objs (set_obj h self c') !! self = Some c') as Hc'
    by (by eapply set_obj_lookup).
  exists (set_obj h self c'), c'. split; [done|].
  split.
  { unfold AnnData_getitem. rewrite (get_obj_Some _ _ _ Hc').
    subst c'. simpl. by rewrite dict_get_set_eq. }
  split; [done|]. split; [done|].
  repeat (split; [done|]).
  split; [unfold AnnData_contains, dict_mem; subst c'; simpl;
          by rewrite dict_get_set_eq|].
  split; [intros dflt; unfold AnnData_get; subst c'; simpl;
          by rewrite dict_get_set_eq|].
  intros k Hne. unfold AnnData_getitem.
  rewrite (get_obj_Some _ _ _ Hc'), (get_obj_Some _ _ _ Hc).
  subst c'. simpl. by rewrite dict_get_set_ne.
Qed.

Lemma meta_setitem_then_getitem_witness :
  ∃ h',
    AnnData_setitem test_mat 0 (IOne (IName "k")) (OInt 1) = Ok h' ∧
    AnnData_getitem h' 0 (IOne (IName "k")) = (h', Ok (ItemMeta (OInt 1))) ∧
    (AnnData_getitem h' 0 (IOne (IName "j"))).2 = Raise (KeyError "j").
Proof.
  destruct (meta_setitem_then_getitem test_mat 0
              {| storage_type := Array; X := test_matrix; smp := 0; var := 1;
                 vis := []; _meta := [] |} "k" (OInt 1))
    as (h' & c' & Hset & Hget & _ & _ & _ & _ & _ & _ & _ & _ & Hoth);
    [reflexivity|].
  exists h'. split; [exact Hset|]. split; [exact Hget|].
  rewrite (Hoth "j"); [reflexivity | discriminate].
Defined.

(** ** What the constructor builds and what it refuses *)

Lemma BoundRecArr_new_none name_col parent n :
  BoundRecArr_new SrcNone name_col parent (Some n)
  = Ok {| arr := {| rec_len := n; fields := [(name_col, arange n)] |};
          _parent := parent; _name_col := name_col |}.
Proof.
  rewrite BoundRecArr_new_eq. simpl.
  rewrite arange_length. unfold broadcast_cols. simpl.
  by rewrite broadcast_to_same by apply arange_length.
Qed.

(** The matrix as the constructor stores it: a 1-D array becomes a column
    matrix. *)
Lemma init_body_tables h a0 a nr nc smp0 var0 bs bv vis0 meta :
  a = match shape a0 with
      | [n] => {| kind := kind a0; dtype_names := dtype_names a0;
                  shape := [n; 1]; data := data a0 |}
      | _ => a0
      end →
  shape a = [nr; nc] →
  BoundRecArr_new smp0 SMP_NAMES (Some (length (objs h))) (Some nr) = Ok bs →
  BoundRecArr_new var0 VAR_NAMES (Some (length (objs h))) (Some nc) = Ok bv →
  init_body h None (OArray a0) smp0 var0 vis0 meta
  = (_ ← _check_dimensions a (arr bs) (arr bv);
     Ok ({| tables := (tables h ++ [bs]) ++ [bv];
            objs := objs h ++
                    [{| storage_type := match kind a0 with
                                        | Sparse => Sparse | _ => Array end;
                        X := a; smp := length (tables h);
                        var := S (length (tables h));
                        vis := default [] vis0; _meta := meta |}] |},
         length (objs h))).
Proof.
  intros Ha Hsh Hbs Hbv. unfold init_body.
  assert (List.find (isinstance_storage (kind a0)) [Array; Masked; Sparse]
          = Some (match kind a0 with Sparse => Sparse | _ => Array end)) as ->
    by (by destruct (kind a0)).
  cbn [mbind result_bind]. rewrite <- Ha, Hsh.
  cbn [length Nat.eqb negb]. rewrite andb_false_r.
  rewrite Hbs, Hbv. cbn [mbind result_bind].
  destruct (_check_dimensions a (arr bs) (arr bv)) as [[]|]; [|done].
  cbn [mbind result_bind alloc_table alloc_obj tables objs].
  by rewrite length_app, Nat.add_1_r.
Qed.

(** X12.  [AnnData(X, vis=vis, **meta)] for a two-dimensional [X] and no
    annotations always succeeds.  It adds one container and its two
    tables to the heap and changes nothing else; the matrix is [X]
    itself, the rows are labelled 0, ..., nr-1 and the columns 0, ...,
    nc-1, the visualization mapping is [vis] (empty when not given), and
    every keyword is dataset metadata that string indexing reads back. *)
Theorem init_default_labels h a0 nr nc vis0 meta :
  shape a0 = [nr; nc] →
  ∃ h' self c bs bv,
    AnnData_init h None (OArray a0) SrcNone SrcNone vis0 meta
    = (None, Ok (h', self)) ∧
    objs h' = objs h ++ [c] ∧ self = length (objs h) ∧
    tables h' = tables h ++ [bs; bv] ∧
    smp c = length (tables h) ∧ var c = S (length (tables h)) ∧
    X c = a0 ∧ vis c = default [] vis0 ∧ _meta c = meta ∧
    arr bs = {| rec_len := nr; fields := [(SMP_NAMES, arange nr)] |} ∧
    arr bv = {| rec_len := nc; fields := [(VAR_NAMES, arange nc)] |} ∧
    _parent bs = Some self ∧ _parent bv = Some self ∧
    (∀ k v, dict_get k meta = Some v →
            AnnData_getitem h' self (IOne (IName k))
            = (h', Ok (ItemMeta v))).
Proof.
  intros Hsh. unfold AnnData_init.
  erewrite (init_body_tables h a0 a0 nr nc);
    [| by rewrite Hsh | done | apply BoundRecArr_new_none..].
  unfold _check_dimensions. rewrite Hsh. simpl. rewrite !Nat.eqb_refl. simpl.
  eexists _, _, _, _, _. split; [done|]. simpl.
  split; [done|]. split; [done|].
  split; [by rewrite <- app_assoc|].
  repeat (split; [done|]).
  intros k v Hk. unfold AnnData_getitem, get_obj. simpl.
  rewrite list_lookup_middle by done. simpl. by rewrite Hk.
Qed.

Lemma init_default_labels_witness :
  ∃ h',
    AnnData_init empty_heap None (OArray test_matrix) SrcNone SrcNone None
      [("k", OInt 1)] = (None, Ok (h', 0)) ∧
    AnnData_getitem h' 0 (IOne (IName "k")) = (h', Ok (ItemMeta (OInt 1))).
Proof.
  destruct (init_default_labels empty_heap test_matrix 2 3 None
              [("k", OInt 1)] eq_refl)
    as (h' & self & c & bs & bv & Hi & _ & -> & _ & _ & _ & _ & _ & _ & _ & _
        & _ & _ & Hget).
  exists h'. split; [exact Hi|]. by apply Hget.
Defined.

(** X13.  A one-dimensional array of length n is stored as an n x 1
    matrix with the same cells, with row labels 0, ..., n-1 and the one
    column label 0. *)
Theorem init_promotes_1d h a0 n vis0 meta :
  shape a0 = [n] →
  ∃ h' self c bs bv,
    AnnData_init h None (OArray a0) SrcNone SrcNone vis0 meta
    = (None, Ok (h', self)) ∧
    objs h' !! self = Some c ∧
    shape (X c) = [n; 1] ∧ data (X c) = data a0 ∧ kind (X c) = kind a0 ∧
    tables h' !! smp c = Some bs ∧ tables h' !! var c = Some bv ∧
    arr bs = {| rec_len := n; fields := [(SMP_NAMES, arange n)] |} ∧
    arr bv = {| rec_len := 1; fields := [(VAR_NAMES, [0%Z])] |}.
Proof.
  intros Hsh. unfold AnnData_init.
  erewrite (init_body_tables h a0 _ n 1);
    [| by rewrite Hsh | done | apply BoundRecArr_new_none..].
  unfold _check_dimensions. simpl. rewrite !Nat.eqb_refl. simpl.
  eexists _, _, _, _, _. split; [done|]. simpl.
  split; [by apply list_lookup_middle|]. simpl.
  repeat (split; [done|]).
  split; [apply lookup_app_l_Some; by apply list_lookup_middle|].
  split; [apply list_lookup_middle; by rewrite length_app, Nat.add_1_r|].
  done.
Qed.

Lemma init_promotes_1d_witness :
  ∃ h' c,
    AnnData_init empty_heap None
      (OArray {| kind := Array; dtype_names := false; shape := [2];
                 data := [1; 2]%Z |}) SrcNone SrcNone None []
    = (None, Ok (h', 0)) ∧
    objs h' !! 0 = Some c ∧ shape (X c) = [2; 1].
Proof.
  destruct (init_promotes_1d empty_heap
              {| kind := Array; dtype_names := false; shape := [2];
                 data := [1; 2]%Z |} 2 None [] eq_refl)
    as (h' & self & c & bs & bv & Hi & Hc & Hsh & _).
  assert (self = 0) as ->.
  { vm_compute in Hi. by injection Hi as _ <-. }
  by exists h', c.
Defined.

(** X14.  Annotations that do not fit the matrix are refused: a row
    annotation mapping whose columns have a length other than the number
    of rows stops the construction with a [ValueError] naming the number
    of rows and the length found, and likewise a column annotation
    mapping of the wrong length, naming the number of columns. *)
Theorem init_refuses_misfit_annotation h a0 nr nc m n vis0 meta :
  shape a0 = [nr; nc] →
  m ≠ [] → NoDup (dict_keys m) → Forall (fun kv => length kv.2 = n) m →
  (n ≠ nr →
     AnnData_init h None (OArray a0) (SrcMap m) SrcNone vis0 meta
     = (None,
        Raise (ValueError
                 ("Sample metadata needs to have the same amount of "
                  +:+ "rows as data has (" +:+ show_nat nr
                  +:+ "), but has " +:+ show_nat n +:+ " rows")))) ∧
  (n ≠ nc →
     AnnData_init h None (OArray a0) SrcNone (SrcMap m) vis0 meta
     = (None,
        Raise (ValueError
                 ("Feature metadata needs to have the same amount of "
                  +:+ "rows as data has columns (" +:+ show_nat nc
                  +:+ "), but has " +:+ show_nat n +:+ " rows")))).
Proof.
  intros Hsh Hne Hnd Hlen. split; intros Hn; unfold AnnData_init; f_equal.
  - erewrite (init_body_tables h a0 a0 nr nc);
      [| by rewrite Hsh | done
       | by apply (BoundRecArr_new_map m _ _ _ n)
       | apply BoundRecArr_new_none].
    unfold _check_dimensions. rewrite Hsh. simpl.
    by destruct (Nat.eqb_spec n nr).
  - erewrite (init_body_tables h a0 a0 nr nc);
      [| by rewrite Hsh | done
       | apply BoundRecArr_new_none
       | by apply (BoundRecArr_new_map m _ _ _ n)].
    unfold _check_dimensions. rewrite Hsh. simpl. rewrite Nat.eqb_refl. simpl.
    by destruct (Nat.eqb_spec n nc).
Qed.

Lemma init_refuses_misfit_annotation_witness :
  AnnData_init empty_heap None (OArray (np_array [[1; 2]; [3; 4]]%Z))
    (SrcMap [("TooLong", [1; 2; 3; 4]%Z)]) SrcNone None []
  = (None,
     Raise (ValueError
       "Sample metadata needs to have the same amount of rows as data has (2), but has 4 rows")).
Proof.
  apply (proj1 (init_refuses_misfit_annotation empty_heap
                  (np_array [[1; 2]; [3; 4]]%Z) 2 2
                  [("TooLong", [1; 2; 3; 4]%Z)] 4 None [] eq_refl
                  ltac:(discriminate) ltac:(apply NoDup_singleton)
                  ltac:(repeat constructor))).
  discriminate.
Defined.

(** X15.  [AnnData(X, smp, var)] with two mappings of columns that fit
    the matrix succeeds, and the labels round-trip: an axis whose mapping
    has an entry for its label name is labelled by that entry, exactly;
    an axis whose mapping has none is labelled 0, 1, ...; every
    annotation column reads back as given. *)
Theorem init_with_mappings h a0 nr nc ms mv vis0 meta :
  shape a0 = [nr; nc] →
  ms ≠ [] → NoDup (dict_keys ms) → Forall (fun kv => length kv.2 = nr) ms →
  mv ≠ [] → NoDup (dict_keys mv) → Forall (fun kv => length kv.2 = nc) mv →
  ∃ h' self c bs bv,
    AnnData_init h None (OArray a0) (SrcMap ms) (SrcMap mv) vis0 meta
    = (None, Ok (h', self)) ∧
    objs h' !! self = Some c ∧ X c = a0 ∧
    tables h' !! smp c = Some bs ∧ tables h' !! var c = Some bv ∧
    axis_names h' c AxSmp
    = Ok (default (arange nr) (dict_get SMP_NAMES ms)) ∧
    axis_names h' c AxVar
    = Ok (default (arange nc) (dict_get VAR_NAMES mv)) ∧
    (∀ k col, dict_get k ms = Some col →
              dict_get k (fields (arr bs)) = Some col) ∧
    (∀ k col, dict_get k mv = Some col →
              dict_get k (fields (arr bv)) = Some col) ∧
    shape_invariant h' self.
Proof.
  intros Hsh Hnes Hnds Hls Hnev Hndv Hlv. unfold AnnData_init.
  erewrite (init_body_tables h a0 a0 nr nc);
    [| by rewrite Hsh | done
     | by apply (BoundRecArr_new_map ms _ _ _ nr)
     | by apply (BoundRecArr_new_map mv _ _ _ nc)].
  unfold _check_dimensions. rewrite Hsh. simpl. rewrite !Nat.eqb_refl. simpl.
  set (fs := if dict_mem SMP_NAMES ms then ms else ms ++ [(SMP_NAMES, arange nr)]).
  set (fv := if dict_mem VAR_NAMES mv then mv else mv ++ [(VAR_NAMES, arange nc)]).
  assert (∀ name m n, dict_get name
            (if dict_mem name m then m else m ++ [(name, arange n)])
          = Some (default (arange n) (dict_get name m))) as Hlab.
  { intros name m n. unfold dict_mem.
    destruct (dict_get name m) eqn:E; simpl; [done|].
    rewrite dict_get_app, E. simpl. by rewrite String.eqb_refl. }
  assert (∀ name (m : list (string * column)) n k col,
            dict_get k m = Some col →
            dict_get k (if dict_mem name m then m else m ++ [(name, arange n)])
            = Some col) as Hcol.
  { intros name m n k col Hk. destruct (dict_mem name m); [done|].
    by rewrite dict_get_app, Hk. }
  eexists _, _, _, _, _. split; [done|].
  split; [simpl; by apply list_lookup_middle|]. simpl.
  split; [done|].
  split; [apply lookup_app_l_Some; by apply list_lookup_middle|].
  split; [apply list_lookup_middle; by rewrite length_app, Nat.add_1_r|].
  split.
  { eapply axis_names_Some; simpl;
      [apply lookup_app_l_Some; by apply list_lookup_middle | apply Hlab]. }
  split.
  { eapply axis_names_Some; simpl;
      [apply list_lookup_middle; by rewrite length_app, Nat.add_1_r
      | apply Hlab]. }
  split; [intros k col Hk; simpl; by apply Hcol|].
  split; [intros k col Hk; simpl; by apply Hcol|].
  eexists _, _, _, nr, nc. split; [simpl; by apply list_lookup_middle|].
  simpl. split; [apply lookup_app_l_Some; by apply list_lookup_middle|].
  split; [apply list_lookup_middle; by rewrite length_app, Nat.add_1_r|].
  done.
Qed.

Lemma init_with_mappings_witness :
  ∃ h' c,
    AnnData_init empty_heap None (OArray test_matrix)
      (SrcMap [(SMP_NAMES, [65; 66]%Z)])
      (SrcMap [(VAR_NAMES, [97; 98; 99]%Z)]) None [] = (None, Ok (h', 0)) ∧
    objs h' !! 0 = Some c ∧
    axis_names h' c AxSmp = Ok [65; 66]%Z ∧
    axis_names h' c AxVar = Ok [97; 98; 99]%Z.
Proof.
  destruct (init_with_mappings empty_heap test_matrix 2 3
              [(SMP_NAMES, [65; 66]%Z)] [(VAR_NAMES, [97; 98; 99]%Z)] None [])
    as (h' & self & c & bs & bv & Hi & Hc & _ & _ & _ & Hs & Hv & _);
    [reflexivity | discriminate | apply NoDup_singleton | repeat constructor
    | discriminate | apply NoDup_singleton | repeat constructor |].
  assert (self = 0) as ->.
  { vm_compute in Hi. by injection Hi as _ <-. }
  exists h', c. split; [exact Hi|]. split; [exact Hc|].
  split; [exact Hs | exact Hv].
Defined.

(** X16.  The constructor validates the payload before it builds
    anything: an object that is not an array, and an array without
    structured dtype whose rank is neither 1 nor 2, are refused with a
    [ValueError] (the second names the rank), whatever the annotations. *)
Theorem init_refuses_bad_payload h X0 smp0 var0 vis0 meta :
  ((∀ a, X0 ≠ OArray a) →
     AnnData_init h None X0 smp0 var0 vis0 meta
     = (None,
        Raise (ValueError
                 ("X needs to be of one of the following types "
                  +:+ "[ndarray, MaskedArray, spmatrix] not "
                  +:+ type_repr X0)))) ∧
  (∀ a, X0 = OArray a → dtype_names a = false →
        length (shape a) ≠ 1 → length (shape a) ≠ 2 →
        AnnData_init h None X0 smp0 var0 vis0 meta
        = (None,
           Raise (ValueError ("X needs to be 2-dimensional, not "
                    +:+ show_nat (length (shape a)) +:+ "D")))).
Proof.
  split.
  - intros HX. unfold AnnData_init, init_body.
    destruct X0 as [| | | |a|]; try done. by destruct (HX a).
  - intros a -> Hd H1 H2. unfold AnnData_init, init_body. f_equal.
    assert (List.find (isinstance_storage (kind a)) [Array; Masked; Sparse]
            = Some (match kind a with Sparse => Sparse | _ => Array end)) as ->
      by (by destruct (kind a)).
    cbn [mbind result_bind].
    destruct (shape a) as [|n [|n' sh]] eqn:Hsh; simpl in H1, H2; try done;
      cbv zeta; rewrite Hsh, Hd; simpl.
    + done.
    + by destruct sh.
Qed.

Lemma init_refuses_bad_payload_witness :
  AnnData_init empty_heap None (OList [1; 2]%Z) SrcNone SrcNone None []
  = (None,
     Raise (ValueError
       "X needs to be of one of the following types [ndarray, MaskedArray, spmatrix] not <class 'list'>")) ∧
  AnnData_init empty_heap None
    (OArray {| kind := Array; dtype_names := false; shape := [2; 2; 2];
               data := [] |}) SrcNone SrcNone None []
  = (None, Raise (ValueError "X needs to be 2-dimensional, not 3D")).
Proof.
  split.
  - apply (proj1 (init_refuses_bad_payload empty_heap (OList [1; 2]%Z)
                    SrcNone SrcNone None [])).
    discriminate.
  - apply (proj2 (init_refuses_bad_payload empty_heap _ SrcNone SrcNone None [])
             {| kind := Array; dtype_names := false; shape := [2; 2; 2];
                data := [] |} eq_refl eq_refl); simpl; lia.
Defined.

(** X17.  What the legacy bundle holds takes precedence over the direct
    arguments: when the bundle has ['X'], the argument [X] is ignored;
    when it has ['row_names'] or ['smp_names'], the argument [smp] is
    ignored; when it has ['col_names'] or ['var_names'], the argument
    [var] is ignored. *)
Theorem init_bundle_overrides_arguments h d vis0 meta :
  (dict_mem "X" d = true →
     ∀ X1 X2 smp0 var0,
       AnnData_init h (Some d) X1 smp0 var0 vis0 meta
       = AnnData_init h (Some d) X2 smp0 var0 vis0 meta) ∧
  (dict_mem "row_names" d || dict_mem "smp_names" d = true →
     ∀ X0 smp1 smp2 var0,
       AnnData_init h (Some d) X0 smp1 var0 vis0 meta
       = AnnData_init h (Some d) X0 smp2 var0 vis0 meta) ∧
  (dict_mem "col_names" d || dict_mem "var_names" d = true →
     ∀ X0 smp0 var1 var2,
       AnnData_init h (Some d) X0 smp0 var1 vis0 meta
       = AnnData_init h (Some d) X0 smp0 var2 vis0 meta).
Proof.
  assert (∀ (V : Type) k k' (m : list (string * V)),
            k ≠ k' → dict_get k' (dict_del k m) = dict_get k' m) as Hdel
    by (intros; by apply dict_get_del_ne).
  split; [|split].
  - unfold dict_mem. intros HX X1 X2 smp0 var0.
    unfold AnnData_init, init_legacy.
    destruct (dict_get "X" d); [done|discriminate HX].
  - unfold dict_mem. intros Hs X0 smp1 smp2 var0.
    unfold AnnData_init, init_legacy.
    destruct (dict_get "X" d) as [x|] eqn:EX.
    + rewrite !(Hdel _ "X") in * by done.
      destruct (dict_get "row_names" d); [done|].
      destruct (dict_get "smp_names" d); [done|discriminate Hs].
    + destruct (dict_get "row_names" d); [done|].
      destruct (dict_get "smp_names" d); [done|discriminate Hs].
  - unfold dict_mem. intros Hv X0 smp0 var1 var2.
    unfold AnnData_init, init_legacy.
    destruct (dict_get "X" d) as [x|];
      (destruct (dict_get "row_names" _) as [r|];
       [|destruct (dict_get "smp_names" _) as [s|]]);
      rewrite ?Hdel by done;
      (destruct (dict_get "col_names" d); [done|];
       destruct (dict_get "var_names" d); [done|discriminate Hv]).
Qed.

Lemma init_bundle_overrides_arguments_witness :
  AnnData_init empty_heap (Some legacy_example) ONone SrcNone SrcNone None []
  = AnnData_init empty_heap (Some legacy_example) (OInt 5)
      (SrcOther "int") SrcNone None [].
Proof.
  rewrite (proj1 (init_bundle_overrides_arguments empty_heap legacy_example
                    None []) eq_refl ONone (OInt 5) SrcNone SrcNone).
  apply (proj1 (proj2 (init_bundle_overrides_arguments empty_heap
                         legacy_example None [])) eq_refl).
Defined.

(** ** Indexing a container *)





Lemma range_one (s : Z) : range s (s + 1) 1 = [s].
Proof.
  unfold range, range_len. simpl.
  destruct (Z.ltb_spec s (s + 1)); [|lia].
  replace (s + 1 - s - 1)%Z with 0%Z by lia. simpl. f_equal. lia.
Qed.

Lemma range_none (s e : Z) : (e ≤ s)%Z → range s e 1 = [].
Proof.
  intros. unfold range, range_len. simpl.
  by destruct (Z.ltb_spec s e); [lia|].
Qed.

(** X18.  An integer component [i] is turned into the slice [i:i+1], so
    along an axis of length [n] it selects the one position [i] when
    [0 <= i < n], the position [i + n] when [-n <= i < -1], and nothing
    at all otherwise: [-1] and every integer out of range select no
    position, where indexing the matrix itself would give the last
    position or raise [IndexError]. *)
Theorem int_index_positions (n : nat) (i : Z) :
  positions n (int_to_slice (IInt i))
  = Ok (if (0 <=? i)%Z && (i <? Z.of_nat n)%Z then [Z.to_nat i]
        else if (- Z.of_nat n <=? i)%Z && (i <? -1)%Z
             then [Z.to_nat (i + Z.of_nat n)]
             else []) ∧
  (i = (-1)%Z ∨ (Z.of_nat n ≤ i)%Z ∨ (i < - Z.of_nat n)%Z →
   positions n (int_to_slice (IInt i)) = Ok [] ∧
   positions n (IInt i) ≠ Ok []).
Proof.
  assert (positions n (int_to_slice (IInt i))
          = Ok (if (0 <=? i)%Z && (i <? Z.of_nat n)%Z then [Z.to_nat i]
                else if (- Z.of_nat n <=? i)%Z && (i <? -1)%Z
                     then [Z.to_nat (i + Z.of_nat n)]
                     else [])) as Hpos.
  { unfold positions, int_to_slice, slice_indices, default.
    change (1 =? 0)%Z with false. change (1 <? 0)%Z with false.
    cbv iota. cbn [mbind result_bind]. f_equal.
    set (s0 := if (i <? 0)%Z then _ else _).
    set (e0 := if (i + 1 <? 0)%Z then _ else _).
    destruct (Z.leb_spec 0 i), (Z.ltb_spec i (Z.of_nat n)); cbn [andb].
    - assert (s0 = i ∧ e0 = (i + 1)%Z) as [-> ->]
        by (subst s0 e0;
            destruct (Z.ltb_spec i 0), (Z.ltb_spec (i + 1) 0); lia).
      by rewrite range_one.
    - assert (e0 ≤ s0)%Z
        by (subst s0 e0;
            destruct (Z.ltb_spec i 0), (Z.ltb_spec (i + 1) 0); lia).
      rewrite range_none by done.
      by destruct (Z.leb_spec (- Z.of_nat n) i), (Z.ltb_spec i (-1)); try lia.
    - destruct (Z.leb_spec (- Z.of_nat n) i), (Z.ltb_spec i (-1)); cbn [andb].
      + assert (s0 = (i + Z.of_nat n)%Z ∧ e0 = (i + Z.of_nat n + 1)%Z)
          as [-> ->]
          by (subst s0 e0;
              destruct (Z.ltb_spec i 0), (Z.ltb_spec (i + 1) 0); lia).
        by rewrite range_one.
      + assert (e0 ≤ s0)%Z
          by (subst s0 e0;
              destruct (Z.ltb_spec i 0), (Z.ltb_spec (i + 1) 0); lia).
        by rewrite range_none.
      + assert (e0 ≤ s0)%Z
          by (subst s0 e0;
              destruct (Z.ltb_spec i 0), (Z.ltb_spec (i + 1) 0); lia).
        by rewrite range_none.
      + assert (e0 ≤ s0)%Z
          by (subst s0 e0;
              destruct (Z.ltb_spec i 0), (Z.ltb_spec (i + 1) 0); lia).
        by rewrite range_none.
    - lia. }
  split; [exact Hpos|].
  intros Hi. split.
  - rewrite Hpos. f_equal.
    destruct (Z.leb_spec 0 i), (Z.ltb_spec i (Z.of_nat n)),
      (Z.leb_spec (- Z.of_nat n) i), (Z.ltb_spec i (-1)); simpl; try done; lia.
  - unfold positions, wrap_index.
    destruct ((0 <=? i)%Z && (i <? Z.of_nat n)%Z); [done|].
    by destruct ((- Z.of_nat n <=? i)%Z && (i <? 0)%Z).
Qed.

Lemma int_index_positions_witness :
  positions 3 (int_to_slice (IInt (-1))) = Ok [] ∧
  positions 3 (IInt (-1)) ≠ Ok [].
Proof.
  apply (proj2 (int_index_positions 3 (-1))). by left.
Defined.











(** X21.  Two list components are never accepted: numpy pairs the two
    lists up and answers with a one-dimensional array, so for a matrix
    that is not sparse [container[[r1, ...], [c1, ...]]] fails on the
    length assertions or on the missing second axis, whatever the lists
    hold, and the heap is left as it was. *)
Theorem getitem_refuses_two_lists h self c i samp feat :
  objs h !! self = Some c → kind (X c) ≠ Sparse →
  _unpack_index i = Ok (samp, feat) →
  is_list samp = true → is_list feat = true →
  ∃ e, AnnData_getitem h self i = (h, Raise e).
Proof.
  intros Hc _ Hun Hl1 Hl2.
  assert (∃ e, getitem_pieces h c i = Raise e) as [e Hp].
  { unfold getitem_pieces. rewrite Hun. cbn [mbind result_bind].
    unfold ndarray_getitem, region.
    destruct (shape (X c)) as [|nr [|nc [|? ?]]]; try by eexists.
    destruct (positions nr samp) as [rs|]; [|by eexists].
    cbn [mbind result_bind].
    destruct (positions nc feat) as [cs|]; [|by eexists].
    cbn [mbind result_bind]. rewrite Hl1, Hl2. cbn [andb].
    destruct (pair_up rs cs) as [ps|]; [|by eexists].
    cbn [mbind result_bind].
    destruct (get_table h (smp c)) as [bs|]; [|by eexists].
    cbn [mbind result_bind].
    destruct (rec_getitem (arr bs) samp) as [sm|]; [|by eexists].
    cbn [mbind result_bind].
    destruct (get_table h (var c)) as [bv|]; [|by eexists].
    cbn [mbind result_bind].
    destruct (rec_getitem (arr bv) feat) as [vm|]; [|by eexists].
    cbn [mbind result_bind].
    unfold shape_at. simpl.
    destruct (negb (rec_len sm =? length ps)%nat); by eexists. }
  exists e. unfold AnnData_getitem. rewrite (get_obj_Some _ _ _ Hc).
  destruct i as [[z|a b st|l|s]|l]; try (by rewrite Hp).
  by injection Hun as <- <-.
Qed.

Lemma getitem_refuses_two_lists_witness :
  ∃ e, AnnData_getitem test_mat 0 (ITuple [IList [0; 1]%Z; IList [0; 1]%Z])
       = (test_mat, Raise e).
Proof.
  apply (getitem_refuses_two_lists test_mat 0
           {| storage_type := Array; X := test_matrix; smp := 0; var := 1;
              vis := []; _meta := [] |}
           (ITuple [IList [0; 1]%Z; IList [0; 1]%Z])
           (IList [0; 1]%Z) (IList [0; 1]%Z));
    [reflexivity | discriminate | reflexivity | reflexivity | reflexivity].
Defined.

(** ** Writing a scalar into the matrix *)









(** ** Construction from a legacy bundle *)

Lemma init_body_bundle h d a0 nr nc rs rv vis0 meta :
  shape a0 = [nr; nc] → rec_wf rs → rec_wf rv →
  rec_len rs = nr → rec_len rv = nc →
  let self := length (objs h) in
  let bs := {| arr := rs; _parent := Some self; _name_col := SMP_NAMES |} in
  let bv := {| arr := rv; _parent := Some self; _name_col := VAR_NAMES |} in
  let c := {| storage_type := match kind a0 with
                              | Sparse => Sparse | _ => Array end;
              X := a0; smp := length (tables h);
              var := S (length (tables h));
              vis := default [] vis0; _meta := meta |} in
  init_body h (Some d) (OArray a0) (SrcRec rs) (SrcRec rv) vis0 meta
  = (h4 ← init_items {| tables := (tables h ++ [bs]) ++ [bv];
                         objs := objs h ++ [c] |} self d;
     Ok (h4, self)).
Proof.
  intros Hsh Hwfs Hwfv Hls Hlv self bs bv c. unfold init_body.
  assert (List.find (isinstance_storage (kind a0)) [Array; Masked; Sparse]
          = Some (match kind a0 with Sparse => Sparse | _ => Array end)) as ->
    by (by destruct (kind a0)).
  simpl. repeat (rewrite Hsh; simpl). rewrite andb_false_r.
  rewrite !BoundRecArr_new_copy by done. simpl.
  unfold _check_dimensions. rewrite Hsh, Hls, Hlv, !Nat.eqb_refl. simpl.
  subst bs bv c self. unfold alloc_obj. simpl.
  by rewrite length_app, Nat.add_1_r.
Qed.

(** Keys other than ['smp'], ['row'], ['var'] and ['col'] are written to
    the metadata one after the other. *)
Lemma init_items_plain h self c items :
  objs h !! self = Some c →
  Forall (fun kv => kv.1 ∉ ["smp"; "row"; "var"; "col"]) items →
  init_items h self items
  = Ok (set_obj h self
          (with_meta (foldl (fun m kv => dict_set kv.1 kv.2 m) (_meta c) items)
             c)).
Proof.
  revert h c. induction items as [|[k v] items IH]; intros h c Hc Hall.
  - simpl. f_equal. symmetry.
    replace (with_meta (_meta c) c) with c by (by destruct c).
    by apply set_obj_same.
  - apply Forall_cons in Hall as [Hk Hall]. simpl in Hk.
    cbn [init_items]. unfold init_item.
    assert (existsb (String.eqb k) ["smp"; "row"; "var"; "col"] = false)
      as ->.
    { simpl. repeat (apply not_elem_of_cons in Hk as [? Hk]).
      by rewrite !(proj2 (String.eqb_neq k _)) by done. }
    cbn [negb]. rewrite (get_obj_Some _ _ _ Hc). cbn [mbind result_bind].
    rewrite (IH _ (with_meta (dict_set k v (_meta c)) c))
      by (try done; by eapply set_obj_lookup).
    f_equal. unfold set_obj. cbn [tables objs with_meta _meta storage_type
                                  X smp var vis foldl fst snd].
    by rewrite list_insert_insert_eq.
Qed.

Lemma dict_del_keys {V} (P : string → Prop) k (d : list (string * V)) :
  Forall P (dict_keys d) → Forall P (dict_keys (dict_del k d)).
Proof.
  unfold dict_keys. induction d as [|[k' v] d IH]; [done|].
  simpl. intros [? ?]%Forall_cons.
  destruct (k =? k')%string; [by apply IH|].
  simpl. apply Forall_cons. split; [done|by apply IH].
Qed.

Lemma dict_del_NoDup {V} k (d : list (string * V)) :
  NoDup (dict_keys d) → NoDup (dict_keys (dict_del k d)).
Proof.
  unfold dict_keys. induction d as [|[k' v] d IH]; [done|].
  simpl. intros [Hk' Hnd]%NoDup_cons.
  destruct (k =? k')%string; [by apply IH|].
  simpl. apply NoDup_cons. split; [|by apply IH].
  intros Hin. apply Hk'.
  assert (Forall (fun x => x ∈ d.*1) (dict_del k d).*1) as Hsub.
  { apply (dict_del_keys (fun x => x ∈ d.*1)).
    by apply Forall_forall. }
  rewrite Forall_forall in Hsub. by apply Hsub.
Qed.

(** X23.  A container built from a legacy bundle, as [from_ddata] of
    [test_ddata] does: for a bundle that holds a two-dimensional matrix
    under ['X'], a list of one label per row under ['row_names'], a list
    of one label per column under ['col_names'], and no key ['smp'],
    ['row'], ['var'] or ['col'], the construction succeeds whatever the
    direct arguments are; the matrix is the bundle's, the rows and
    columns are labelled as the bundle says, every other entry of the
    bundle is dataset metadata of the container, the three keys
    themselves are not, and keywords the bundle does not name keep
    their value. *)
Theorem init_from_bundle h d a0 nr nc rl cl X0 smp0 var0 vis0 meta :
  NoDup (dict_keys d) →
  dict_get "X" d = Some (OArray a0) → shape a0 = [nr; nc] →
  dict_get "row_names" d = Some (OList rl) → length rl = nr →
  dict_get "col_names" d = Some (OList cl) → length cl = nc →
  Forall (fun k => k ∉ ["smp"; "row"; "var"; "col"]) (dict_keys d) →
  ∃ d' h' c,
    AnnData_init h (Some d) X0 smp0 var0 vis0 meta
    = (Some d', Ok (h', length (objs h))) ∧
    objs h' !! length (objs h) = Some c ∧ X c = a0 ∧
    axis_names h' c AxSmp = Ok rl ∧ axis_names h' c AxVar = Ok cl ∧
    shape_invariant h' (length (objs h)) ∧
    (∀ k v, k ∉ ["X"; "row_names"; "col_names"] →
            dict_get k d = Some v → dict_get k (_meta c) = Some v) ∧
    (∀ k, k ∈ ["X"; "row_names"; "col_names"] →
          dict_get k (_meta c) = dict_get k meta) ∧
    (∀ k, dict_get k d = None → dict_get k (_meta c) = dict_get k meta).
Proof.
  intros Hnd HX Hsh Hrow Hrl Hcol Hcl Hplain.
  set (d' := dict_del "col_names" (dict_del "row_names" (dict_del "X" d))).
  assert (init_legacy d X0 smp0 var0
          = (d', OArray a0,
             SrcRec {| rec_len := length rl; fields := [(SMP_NAMES, rl)] |},
             SrcRec {| rec_len := length cl; fields := [(VAR_NAMES, cl)] |}))
    as Hleg.
  { unfold init_legacy. rewrite HX.
    rewrite (dict_get_del_ne "X" "row_names"), Hrow by done.
    rewrite (dict_get_del_ne "row_names" "col_names"),
      (dict_get_del_ne "X" "col_names"), Hcol by done.
    done. }
  assert (Forall (fun kv : string * pyobj =>
                    kv.1 ∉ ["smp"; "row"; "var"; "col"]) d') as Hplain'.
  { assert (Forall (fun k => k ∉ ["smp"; "row"; "var"; "col"])
              (dict_keys d')) as Hk by (by do 3 apply dict_del_keys).
    unfold dict_keys in Hk. rewrite Forall_forall in Hk.
    apply Forall_forall. intros [k v] Hin. apply Hk.
    apply list_elem_of_fmap. by exists (k, v). }
  assert (NoDup (dict_keys d')) as Hnd' by (by do 3 apply dict_del_NoDup).
  unfold AnnData_init. rewrite Hleg.
  pose proof (init_body_bundle h d' a0 nr nc
                {| rec_len := length rl; fields := [(SMP_NAMES, rl)] |}
                {| rec_len := length cl; fields := [(VAR_NAMES, cl)] |}
                vis0 meta Hsh) as Hbody.
  cbv zeta in Hbody. rewrite Hbody; clear Hbody;
    [| split; [done | split; [apply NoDup_singleton | by repeat constructor]]
     | split; [done | split; [apply NoDup_singleton | by repeat constructor]]
     | done | done].
  erewrite init_items_plain;
    [| cbn [objs]; by apply list_lookup_middle | done].
  cbn [mbind result_bind _meta].
  eexists d', _, _. split; [done|].
  unfold set_obj. cbn [objs tables].
  rewrite insert_app_r_alt, Nat.sub_diag by done. cbn [insert list_insert].
  split; [by apply list_lookup_middle|].
  cbn [with_meta X smp var _meta].
  split; [done|].
  split.
  { eapply axis_names_Some; cbn [axis_table smp tables];
      [apply lookup_app_l_Some; by apply list_lookup_middle|].
    simpl. by rewrite ?String.eqb_refl. }
  split.
  { eapply axis_names_Some; cbn [axis_table var tables];
      [apply list_lookup_middle; by rewrite length_app, Nat.add_1_r|].
    simpl. by rewrite ?String.eqb_refl. }
  split.
  { eexists _, _, _, nr, nc. split; [by apply list_lookup_middle|].
    cbn [X smp var].
    split; [apply lookup_app_l_Some; by apply list_lookup_middle|].
    split; [apply list_lookup_middle; by rewrite length_app, Nat.add_1_r|].
    done. }
  split.
  { intros k v Hk Hget.
    repeat (apply not_elem_of_cons in Hk as [? Hk]).
    apply foldl_dict_set_get; [done|]. subst d'.
    by rewrite !dict_get_del_ne by done. }
  split.
  { intros k Hk. apply foldl_dict_set_other, dict_get_None. subst d'.
    repeat (apply elem_of_cons in Hk as [->|Hk]);
      [| |  | by apply elem_of_nil in Hk].
    - rewrite !dict_get_del_ne by done. apply dict_get_del_eq.
    - rewrite dict_get_del_ne by done. apply dict_get_del_eq.
    - apply dict_get_del_eq. }
  intros k Hk. apply foldl_dict_set_other, dict_get_None. subst d'.
  destruct (String.eqb_spec "col_names" k) as [<-|];
    [apply dict_get_del_eq|].
  destruct (String.eqb_spec "row_names" k) as [<-|];
    [rewrite dict_get_del_ne by done; apply dict_get_del_eq|].
  destruct (String.eqb_spec "X" k) as [<-|];
    [rewrite !dict_get_del_ne by done; apply dict_get_del_eq|].
  by rewrite !dict_get_del_ne by done.
Qed.

Lemma init_from_bundle_witness :
  ∃ d' h' c,
    AnnData_init empty_heap
      (Some [("X", OArray test_matrix); ("row_names", OList [65; 66]%Z);
             ("col_names", OList [97; 98; 99]%Z); ("k", OInt 1)])
      ONone SrcNone SrcNone None [] = (Some d', Ok (h', 0)) ∧
    objs h' !! 0 = Some c ∧
    axis_names h' c AxSmp = Ok [65; 66]%Z ∧
    dict_get "k" (_meta c) = Some (OInt 1).
Proof.
  destruct (init_from_bundle empty_heap
              [("X", OArray test_matrix); ("row_names", OList [65; 66]%Z);
               ("col_names", OList [97; 98; 99]%Z); ("k", OInt 1)]
              test_matrix 2 3 [65; 66]%Z [97; 98; 99]%Z
              ONone SrcNone SrcNone None [])
    as (d' & h' & c & Hi & Hc & _ & Hs & _ & _ & Hm & _);
    [apply has_dup_false; reflexivity | reflexivity | reflexivity
    | reflexivity | reflexivity | reflexivity | reflexivity
    | apply (bool_decide_unpack _); reflexivity |].
  exists d', h', c. split; [exact Hi|]. split; [exact Hc|].
  split; [exact Hs|].
  apply Hm; [apply (bool_decide_unpack _); reflexivity | reflexivity].
Defined.

(** ** What [to_dict] returns *)

Lemma annotation_dict_sub r (l : list (string * column)) label :
  NoDup (dict_keys (fields r)) → (∀ kv, kv ∈ l → kv ∈ fields r) →
  annotation_dict r (dict_keys l) label
  = Ok (List.filter (fun kv => negb (kv.1 =? label)) l).
Proof.
  intros Hnd. unfold annotation_dict, dict_keys.
  induction l as [|[k v] l IH]; intros Hsub; [done|].
  assert (∀ kv, kv ∈ l → kv ∈ fields r) as Hsub'
    by (intros kv Hin; apply Hsub; by right).
  rewrite fmap_cons. cbn [List.filter fst].
  destruct (k =? label)%string; cbn [negb]; [by apply IH|].
  cbn [mapM]. rewrite IH by done. unfold rec_getfield.
  by rewrite (dict_get_NoDup k v) by (try done; apply Hsub; left).
Qed.

Lemma annotation_dict_tail r label :
  NoDup (rec_names r) →
  annotation_dict r (tail (rec_names r)) label
  = Ok (List.filter (fun kv => negb (kv.1 =? label)) (tail (fields r))).
Proof.
  intros Hnd.
  replace (tail (rec_names r)) with (dict_keys (tail (fields r)))
    by (unfold rec_names, dict_keys; by destruct (fields r)).
  apply annotation_dict_sub; [done|].
  intros kv Hin. destruct (fields r); [done|]. by right.
Qed.

(** The result of [to_dict], computed. *)
Lemma to_dict_eq h self c bs bv ls lv :
  objs h !! self = Some c →
  tables h !! smp c = Some bs → tables h !! var c = Some bv →
  NoDup (rec_names (arr bs)) → NoDup (rec_names (arr bv)) →
  dict_get SMP_NAMES (fields (arr bs)) = Some ls →
  dict_get VAR_NAMES (fields (arr bv)) = Some lv →
  to_dict h self
  = Ok (foldl (fun d kv => dict_set kv.1 kv.2 d)
          [("X", OArray (X c));
           ("smp", ODict (List.filter (fun kv => negb (kv.1 =? "smp_names"))
                            (tail (fields (arr bs)))));
           ("var", ODict (List.filter (fun kv => negb (kv.1 =? "var_names"))
                            (tail (fields (arr bv)))));
           ("smp_names", as_array ls); ("var_names", as_array lv)]
          (_meta c)).
Proof.
  intros Hc Hs Hv Hnds Hndv Hls Hlv.
  unfold to_dict. rewrite (get_obj_Some _ _ _ Hc). cbn [mbind result_bind].
  rewrite (get_table_Some _ _ _ Hs), (get_table_Some _ _ _ Hv).
  cbn [mbind result_bind]. unfold smp_keys, var_keys.
  rewrite (get_table_Some _ _ _ Hs), (get_table_Some _ _ _ Hv).
  cbn [mbind result_bind].
  rewrite !annotation_dict_tail by done. cbn [mbind result_bind].
  rewrite (axis_names_Some h c AxSmp bs ls) by done.
  rewrite (axis_names_Some h c AxVar bv lv) by done.
  done.
Qed.

(** X24.  [to_dict] never fails on a container whose tables are
    rectangular and labelled, and its result is determined: the matrix
    under ['X']; under ['smp'] and ['var'] the columns of the tables from
    the second on, in table order, without any that bears the label
    name; the labels under ['smp_names'] and ['var_names']; then the
    dataset metadata, written over these five entries in the order of
    the metadata.  So every metadata entry is in the result with its
    value, also one named like a structural entry, which it replaces; a
    structural entry not named in the metadata is as described. *)
Theorem to_dict_result h self c bs bv ls lv :
  objs h !! self = Some c →
  tables h !! smp c = Some bs → tables h !! var c = Some bv →
  NoDup (rec_names (arr bs)) → NoDup (rec_names (arr bv)) →
  dict_get SMP_NAMES (fields (arr bs)) = Some ls →
  dict_get VAR_NAMES (fields (arr bv)) = Some lv →
  NoDup (dict_keys (_meta c)) →
  let smp_d := List.filter (fun kv => negb (kv.1 =? "smp_names"))
                 (tail (fields (arr bs))) in
  let var_d := List.filter (fun kv => negb (kv.1 =? "var_names"))
                 (tail (fields (arr bv))) in
  let base := [("X", OArray (X c)); ("smp", ODict smp_d);
               ("var", ODict var_d); ("smp_names", as_array ls);
               ("var_names", as_array lv)] in
  ∃ d,
    to_dict h self = Ok d ∧
    d = foldl (fun d kv => dict_set kv.1 kv.2 d) base (_meta c) ∧
    (∀ k v, dict_get k (_meta c) = Some v → dict_get k d = Some v) ∧
    (∀ k, dict_get k (_meta c) = None → dict_get k d = dict_get k base) ∧
    (∀ k, dict_mem k d = dict_mem k base || dict_mem k (_meta c)).
Proof.
  intros Hc Hs Hv Hnds Hndv Hls Hlv Hndm smp_d var_d base.
  eexists. split; [by apply to_dict_eq|].
  split; [done|]. split; [|split].
  - intros k v Hk. by apply foldl_dict_set_get.
  - intros k Hk. apply foldl_dict_set_other. by apply dict_get_None.
  - intros k. unfold dict_mem at 1 3.
    destruct (dict_get k (_meta c)) as [v|] eqn:Hk.
    + rewrite (foldl_dict_set_get k v) by done. by rewrite orb_true_r.
    + rewrite foldl_dict_set_other by (by apply dict_get_None).
      by rewrite orb_false_r.
Qed.

Lemma to_dict_result_witness :
  ∃ d, to_dict test_legacy 0 = Ok d ∧
       dict_get "smp" d = Some (ODict [("Smp", [1; 2]%Z)]) ∧
       dict_get "k" d = Some (OInt 1).
Proof.
  destruct (to_dict_result test_legacy 0
              {| storage_type := Array; X := test_matrix; smp := 2; var := 1;
                 vis := []; _meta := [("k", OInt 1)] |}
              {| arr := {| rec_len := 2;
                           fields := [(SMP_NAMES, [65; 66]%Z);
                                      ("Smp", [1; 2]%Z)] |};
                 _parent := Some 0; _name_col := SMP_NAMES |}
              {| arr := {| rec_len := 3;
                           fields := [(VAR_NAMES, [97; 98; 99]%Z)] |};
                 _parent := Some 0; _name_col := VAR_NAMES |}
              [65; 66]%Z [97; 98; 99]%Z)
    as (d & Hd & _ & Hmeta & Hbase & _);
    [reflexivity | reflexivity | reflexivity
    | apply has_dup_false; reflexivity | apply has_dup_false; reflexivity
    | reflexivity | reflexivity | apply has_dup_false; reflexivity |].
  exists d. split; [exact Hd|]. split.
  - rewrite Hbase; reflexivity.
  - apply Hmeta. reflexivity.
Defined.

(** ** From [to_dict] back to a container *)

Lemma with_axis_table_twice ax t t' c :
  with_axis_table ax t' (with_axis_table ax t c) = with_axis_table ax t' c.
Proof. by destruct ax. Qed.

Lemma with_axis_table_same ax c : with_axis_table ax (axis_table ax c) c = c.
Proof. by destruct ax, c. Qed.

Lemma axis_table_with ax t c : axis_table ax (with_axis_table ax t c) = t.
Proof. by destruct ax. Qed.

Lemma name_col_axis ax :
  (if names_col_of ax =? SMP_NAMES then AxSmp else AxVar) = ax.
Proof. by destruct ax. Qed.

(** The columns of a mapping written one after the other to a table of
    a container with at least one row: every write appends. *)
Lemma set_columns_appends items :
  ∀ h self c ax b n,
    objs h !! self = Some c → shape (X c) !! 0 = Some n → n ≠ 0 →
    tables h !! axis_table ax c = Some b →
    _parent b = Some self → _name_col b = names_col_of ax →
    rec_wf (arr b) →
    NoDup (dict_keys items) →
    (∀ k, k ∈ dict_keys items → k ∉ rec_names (arr b)) →
    Forall (fun kv => length kv.2 = rec_len (arr b)) items →
    ∃ h' t',
      set_columns h self ax items = Ok h' ∧
      objs h' = <[self := with_axis_table ax t' c]> (objs h) ∧
      tables h' !! t'
      = Some {| arr := {| rec_len := rec_len (arr b);
                          fields := fields (arr b) ++ items |};
                _parent := Some self; _name_col := names_col_of ax |} ∧
      (∀ t bt, tables h !! t = Some bt → tables h' !! t = Some bt).
Proof.
  induction items as [|[k v] items IH];
    intros h self c ax b n Hc Hn Hn0 Ht Hp Hnc Hwf Hnd Hfresh Hlen.
  - exists h, (axis_table ax c). split; [done|]. split.
    { rewrite with_axis_table_same. symmetry. by apply list_insert_id. }
    split; [|done]. rewrite Ht, app_nil_r. f_equal.
    destruct b as [[rl fl] pa na]. simpl in *. by subst.
  - apply NoDup_cons in Hnd as [Hk Hnd].
    apply Forall_cons in Hlen as [Hv Hlen]. simpl in Hv.
    assert (k ∉ rec_names (arr b)) as Hkb by (apply Hfresh; left).
    destruct (setitem_new_column_appends h (axis_table ax c) b self c n k v
                Ht Hp Hwf Hc Hn Hn0 Hkb ltac:(lia))
      as (_ & Hset & _ & Hnew).
    cbv zeta in Hset, Hnew. rewrite Hnc in Hset, Hnew.
    rewrite name_col_axis in Hset.
    rewrite pad_to_same in Hset, Hnew by done.
    set (new := {| arr := {| rec_len := rec_len (arr b);
                             fields := fields (arr b) ++ [(k, v)] |};
                   _parent := Some self; _name_col := names_col_of ax |})
      in *.
    set (c1 := with_axis_table ax (length (tables h)) c) in *.
    set (h2 := set_obj (alloc_table h new).1 self c1) in *.
    assert (objs h2 !! self = Some c1) as Hc1
      by (apply list_lookup_insert_eq; by eapply lookup_lt_Some).
    destruct (IH h2 self c1 ax new n) as (h' & t' & Hrest & Hobjs & Ht' & Hold).
    + done.
    + subst c1. by destruct ax.
    + done.
    + subst c1. by rewrite axis_table_with.
    + done.
    + done.
    + destruct Hwf as (Hne & Hndb & Hlb). split; [by destruct (fields (arr b))|].
      split.
      * unfold rec_names, dict_keys in *. simpl. rewrite fmap_app. simpl.
        apply NoDup_app. split; [done|]. split; [|apply NoDup_singleton].
        intros x Hx Hx'. apply list_elem_of_singleton in Hx'. by subst x.
      * simpl. apply Forall_app. split; [done|]. by repeat constructor.
    + done.
    + intros k' Hk'. unfold rec_names, dict_keys. simpl. rewrite fmap_app.
      simpl. intros Hin. apply elem_of_app in Hin as [Hin|Hin].
      * by apply (Hfresh k'); [right|].
      * apply list_elem_of_singleton in Hin. by subst k'.
    + done.
    + exists h', t'. split.
      { cbn [set_columns]. rewrite (get_obj_Some _ _ _ Hc).
        cbn [mbind result_bind]. rewrite Hset. cbn [mbind result_bind].
        exact Hrest. }
      split.
      { rewrite Hobjs. subst h2 c1. unfold set_obj. cbn [objs alloc_table fst].
        by rewrite list_insert_insert_eq, with_axis_table_twice. }
      split.
      { rewrite Ht'. subst new. cbn [arr rec_len fields _name_col].
        by rewrite <- app_assoc. }
      intros t bt Hbt. apply Hold. subst h2. cbn [set_obj tables alloc_table fst].
      by apply lookup_app_l_Some.
Qed.

Lemma foldl_dict_set_app {V} (d0 m : list (string * V)) :
  NoDup (dict_keys m) → (∀ k, k ∈ dict_keys m → k ∉ dict_keys d0) →
  foldl (fun d kv => dict_set kv.1 kv.2 d) d0 m = d0 ++ m.
Proof.
  revert d0. induction m as [|[k v] m IH]; intros d0 Hnd Hfresh.
  - by rewrite app_nil_r.
  - apply NoDup_cons in Hnd as [Hk Hnd]. simpl.
    assert (dict_set k v d0 = d0 ++ [(k, v)]) as ->.
    { assert (k ∉ dict_keys d0) as Hk0 by (apply Hfresh; left).
      clear -Hk0. induction d0 as [|[k' v'] d0 IH]; [done|].
      apply not_elem_of_cons in Hk0 as [Hne Hk0]. simpl in *.
      destruct (String.eqb_spec k k'); [done|]. by rewrite IH. }
    rewrite IH; [by rewrite <- app_assoc|done|].
    intros k' Hk'. unfold dict_keys. rewrite fmap_app. simpl.
    intros Hin. apply elem_of_app in Hin as [Hin|Hin].
    + by apply (Hfresh k'); [right|].
    + apply list_elem_of_singleton in Hin. by subst k'.
Qed.

Lemma dict_del_absent {V} k (d : list (string * V)) :
  k ∉ dict_keys d → dict_del k d = d.
Proof.
  induction d as [|[k' v] d IH]; [done|].
  intros Hk. apply not_elem_of_cons in Hk as [Hne Hk]. simpl in *.
  destruct (String.eqb_spec k k'); [done|]. by rewrite IH.
Qed.

Lemma dict_del_app {V} k (d1 d2 : list (string * V)) :
  dict_del k (d1 ++ d2) = dict_del k d1 ++ dict_del k d2.
Proof.
  induction d1 as [|[k' v] d1 IH]; [done|].
  simpl. destruct (k =? k')%string; [done|]. simpl. by rewrite IH.
Qed.

Lemma filter_label_absent label (l : list (string * column)) :
  label ∉ dict_keys l →
  List.filter (fun kv => negb (kv.1 =? label)) l = l.
Proof.
  induction l as [|[k v] l IH]; [done|].
  intros Hk. apply not_elem_of_cons in Hk as [Hne Hk]. simpl in *.
  destruct (String.eqb_spec k label); [congruence|]. simpl. by rewrite IH.
Qed.

(** X25.  [to_dict] and the construction from a bundle are inverse to
    each other where the code allows it.  Take a container in good shape
    with at least one row, whose tables have the label column first, and
    whose metadata keys are none of the names the constructor or
    [to_dict] treat specially.  Then [to_dict] succeeds, and a container
    constructed from its result as legacy bundle, whatever the direct
    arguments, has the same matrix, the same row and column tables
    (labels and annotation columns, in the same order) and the same
    metadata.  The visualization mapping is not part of the round trip:
    the new container has the one passed to the constructor. *)
Theorem to_dict_round_trip h self c bs bv nr nc ls lv fs fv :
  objs h !! self = Some c →
  tables h !! smp c = Some bs → tables h !! var c = Some bv →
  shape (X c) = [nr; nc] → nr ≠ 0 →
  rec_wf (arr bs) → rec_wf (arr bv) →
  rec_len (arr bs) = nr → rec_len (arr bv) = nc →
  fields (arr bs) = (SMP_NAMES, ls) :: fs →
  fields (arr bv) = (VAR_NAMES, lv) :: fv →
  NoDup (dict_keys (_meta c)) →
  Forall (fun k => k ∉ ["X"; "smp"; "var"; "smp_names"; "var_names";
                        "row"; "col"; "row_names"; "col_names"])
         (dict_keys (_meta c)) →
  ∃ d,
    to_dict h self = Ok d ∧
    ∀ h0 X0 smp0 var0 vis0,
    ∃ d' h' c' bs' bv',
      AnnData_init h0 (Some d) X0 smp0 var0 vis0 []
      = (Some d', Ok (h', length (objs h0))) ∧
      objs h' !! length (objs h0) = Some c' ∧
      X c' = X c ∧ _meta c' = _meta c ∧ vis c' = default [] vis0 ∧
      tables h' !! smp c' = Some bs' ∧ arr bs' = arr bs ∧
      tables h' !! var c' = Some bv' ∧ arr bv' = arr bv ∧
      (∀ a ca, objs h0 !! a = Some ca → objs h' !! a = Some ca) ∧
      (∀ t bt, tables h0 !! t = Some bt → tables h' !! t = Some bt).
Proof.
  intros Hc Hs Hv Hsh Hnr Hwfs Hwfv Hls Hlv Hfs Hfv Hndm Hplain.
  destruct Hwfs as (_ & Hnds & Hlens). destruct Hwfv as (_ & Hndv & Hlenv).
  unfold rec_names in Hnds, Hndv. rewrite Hfs in Hnds, Hlens.
  rewrite Hfv in Hndv, Hlenv.
  apply NoDup_cons in Hnds as [Hls_fresh Hnds].
  apply NoDup_cons in Hndv as [Hlv_fresh Hndv].
  apply Forall_cons in Hlens as [Hlen_ls Hlens].
  apply Forall_cons in Hlenv as [Hlen_lv Hlenv].
  simpl in Hlen_ls, Hlen_lv.
  assert (∀ k, k ∈ ["X"; "smp"; "var"; "smp_names"; "var_names";
                    "row"; "col"; "row_names"; "col_names"] →
               k ∉ dict_keys (_meta c)) as Hspecial.
  { intros k Hk Hin. rewrite Forall_forall in Hplain. by apply (Hplain k). }
  set (base := [("X", OArray (X c)); ("smp", ODict fs); ("var", ODict fv);
                ("smp_names", as_array ls); ("var_names", as_array lv)]).
  assert (to_dict h self = Ok (base ++ _meta c)) as Hd.
  { rewrite (to_dict_eq h self c bs bv ls lv); try done.
    - rewrite Hfs, Hfv. cbn [tail].
      rewrite !filter_label_absent by done.
      f_equal. apply foldl_dict_set_app; [done|].
      intros k Hk Hin. apply (Hspecial k); [|done].
      unfold dict_keys in Hin. simpl in Hin.
      repeat (apply elem_of_cons in Hin as [->|Hin]);
        try (by apply (bool_decide_unpack _)).
      by apply elem_of_nil in Hin.
    - unfold rec_names. rewrite Hfs. by apply NoDup_cons.
    - unfold rec_names. rewrite Hfv. by apply NoDup_cons.
    - by rewrite Hfs.
    - by rewrite Hfv. }
  exists (base ++ _meta c). split; [exact Hd|].
  intros h0 X0 smp0 var0 vis0.
  assert (∀ k, k ∈ ["X"; "smp"; "var"; "smp_names"; "var_names";
                    "row"; "col"; "row_names"; "col_names"] →
               dict_get k (_meta c) = None) as Hnone
    by (intros k Hk; by apply dict_get_None, Hspecial).
  assert (init_legacy (base ++ _meta c) X0 smp0 var0
          = ([("smp", ODict fs); ("var", ODict fv)] ++ _meta c, OArray (X c),
             SrcRec {| rec_len := length ls; fields := [(SMP_NAMES, ls)] |},
             SrcRec {| rec_len := length lv; fields := [(VAR_NAMES, lv)] |}))
    as Hleg.
  { unfold init_legacy. subst base. simpl.
    repeat (first
              [ rewrite dict_del_absent
                  by (apply Hspecial, (bool_decide_unpack _); reflexivity)
              | rewrite Hnone by (apply (bool_decide_unpack _); reflexivity) ];
            simpl).
    done. }
  unfold AnnData_init. rewrite Hleg.
  pose proof (init_body_bundle h0
                ([("smp", ODict fs); ("var", ODict fv)] ++ _meta c)
                (X c) nr nc
                {| rec_len := length ls; fields := [(SMP_NAMES, ls)] |}
                {| rec_len := length lv; fields := [(VAR_NAMES, lv)] |}
                vis0 [] Hsh) as Hbody.
  cbv zeta in Hbody. rewrite Hbody; clear Hbody;
    [| split; [done | split; [apply NoDup_singleton | by repeat constructor]]
     | split; [done | split; [apply NoDup_singleton | by repeat constructor]]
     | simpl; lia | simpl; lia].
  set (new := length (objs h0)).
  set (b1 := {| arr := {| rec_len := length ls; fields := [(SMP_NAMES, ls)] |};
                _parent := Some new; _name_col := SMP_NAMES |}).
  set (b2 := {| arr := {| rec_len := length lv; fields := [(VAR_NAMES, lv)] |};
                _parent := Some new; _name_col := VAR_NAMES |}).
  set (c0 := {| storage_type := match kind (X c) with
                                | Sparse => Sparse | _ => Array end;
                X := X c; smp := length (tables h0);
                var := S (length (tables h0));
                vis := default [] vis0; _meta := [] |}).
  set (h3 := {| tables := (tables h0 ++ [b1]) ++ [b2];
                objs := objs h0 ++ [c0] |}).
  assert (objs h3 !! new = Some c0) as Hc0 by (by apply list_lookup_middle).
  assert (tables h3 !! smp c0 = Some b1) as Hb1
    by (apply lookup_app_l_Some; by apply list_lookup_middle).
  assert (tables h3 !! var c0 = Some b2) as Hb2
    by (apply list_lookup_middle; by rewrite length_app, Nat.add_1_r).
  destruct (set_columns_appends fs h3 new c0 AxSmp b1 nr)
    as (h4 & t1 & Hset1 & Hobjs1 & Htab1 & Hold1);
    [ done | unfold c0; simpl; by rewrite Hsh | done | done | done | done
    | split; [done | split; [apply NoDup_singleton | by repeat constructor]]
    | done
    | intros k Hk Hin; apply list_elem_of_singleton in Hin; by subst k
    | eapply Forall_impl; [exact Hlens|]; intros kv Hkv; simpl in *; lia |].
  set (c1 := with_axis_table AxSmp t1 c0) in *.
  assert (new < length (objs h3))%nat as Hnew
    by (by eapply lookup_lt_Some).
  assert (objs h4 !! new = Some c1) as Hc1
    by (rewrite Hobjs1; by apply list_lookup_insert_eq).
  destruct (set_columns_appends fv h4 new c1 AxVar b2 nr)
    as (h5 & t2 & Hset2 & Hobjs2 & Htab2 & Hold2);
    [ done | unfold c1, c0; simpl; by rewrite Hsh | done
    | by apply Hold1 | done | done
    | split; [done | split; [apply NoDup_singleton | by repeat constructor]]
    | done
    | intros k Hk Hin; apply list_elem_of_singleton in Hin; by subst k
    | eapply Forall_impl; [exact Hlenv|]; intros kv Hkv; simpl in *; lia |].
  set (c2 := with_axis_table AxVar t2 c1) in *.
  assert (objs h5 !! new = Some c2) as Hc2.
  { rewrite Hobjs2. apply list_lookup_insert_eq.
    by rewrite Hobjs1, length_insert. }
  assert (init_items h3 new
            ([("smp", ODict fs); ("var", ODict fv)] ++ _meta c)
          = Ok (set_obj h5 new (with_meta (_meta c) c2))) as Hitems.
  { cbn [app init_items].
    change (init_item h3 new "smp" (ODict fs))
      with (set_columns h3 new AxSmp fs).
    rewrite Hset1. cbn [mbind result_bind].
    change (init_item h4 new "var" (ODict fv))
      with (set_columns h4 new AxVar fv).
    rewrite Hset2. cbn [mbind result_bind].
    assert (Forall (fun kv : string * pyobj =>
                      kv.1 ∉ ["smp"; "row"; "var"; "col"]) (_meta c))
      as Hplain'.
    { apply Forall_forall. intros [k v] Hin Hk. simpl in Hk.
      apply (Hspecial k).
      - repeat (apply elem_of_cons in Hk as [->|Hk]);
          try (by apply (bool_decide_unpack _)).
        by apply elem_of_nil in Hk.
      - apply list_elem_of_fmap. by exists (k, v). }
    rewrite (init_items_plain h5 new c2) by done.
    do 2 f_equal.
    change (_meta c2) with (@nil (string * pyobj)).
    by rewrite foldl_dict_set_app by (try done; intros k _ Hk;
                                        by apply elem_of_nil in Hk). }
  rewrite Hitems. cbn [mbind result_bind].
  eexists _, _, (with_meta (_meta c) c2), _, _. split; [done|].
  split.
  { cbn [set_obj objs]. apply list_lookup_insert_eq.
    by rewrite Hobjs2, Hobjs1, !length_insert. }
  split; [done|]. split; [done|]. split; [done|].
  split; [cbn [set_obj tables with_meta smp]; apply Hold2; exact Htab1|].
  split.
  { unfold b1. cbn [arr rec_len fields app].
    destruct (arr bs) as [rl fl]. simpl in *. by subst rl fl. }
  split; [exact Htab2|].
  split.
  { unfold b2. cbn [arr rec_len fields app].
    destruct (arr bv) as [rl fl]. simpl in *. by subst rl fl. }
  split.
  - intros a ca Ha. cbn [set_obj objs]. rewrite Hobjs2, Hobjs1.
    assert (a < new)%nat by (by eapply lookup_lt_Some).
    rewrite !list_lookup_insert_ne by lia.
    by apply lookup_app_l_Some.
  - intros t bt Hbt. cbn [set_obj tables]. apply Hold2, Hold1.
    by do 2 apply lookup_app_l_Some.
Qed.

Lemma to_dict_round_trip_witness :
  ∃ d d' h' c',
    to_dict test_legacy 0 = Ok d ∧
    AnnData_init empty_heap (Some d) ONone SrcNone SrcNone None []
    = (Some d', Ok (h', 0)) ∧
    objs h' !! 0 = Some c' ∧ X c' = test_matrix ∧
    _meta c' = [("k", OInt 1)].
Proof.
  destruct (to_dict_round_trip test_legacy 0
              {| storage_type := Array; X := test_matrix; smp := 2; var := 1;
                 vis := []; _meta := [("k", OInt 1)] |}
              {| arr := {| rec_len := 2;
                           fields := [(SMP_NAMES, [65; 66]%Z);
                                      ("Smp", [1; 2]%Z)] |};
                 _parent := Some 0; _name_col := SMP_NAMES |}
              {| arr := {| rec_len := 3;
                           fields := [(VAR_NAMES, [97; 98; 99]%Z)] |};
                 _parent := Some 0; _name_col := VAR_NAMES |}
              2 3 [65; 66]%Z [97; 98; 99]%Z [("Smp", [1; 2]%Z)] [])
    as (d & Hd & Hback);
    [reflexivity | reflexivity | reflexivity | reflexivity | discriminate
    | split; [discriminate | split;
        [apply has_dup_false; reflexivity | repeat constructor]]
    | split; [discriminate | split;
        [apply has_dup_false; reflexivity | repeat constructor]]
    | reflexivity | reflexivity | reflexivity | reflexivity
    | apply has_dup_false; reflexivity
    | apply (bool_decide_unpack _); reflexivity |].
  destruct (Hback empty_heap ONone SrcNone SrcNone None)
    as (d' & h' & c' & bs' & bv' & Hi & Hc' & HX & Hm & _).
  exists d, d', h', c'. split; [exact Hd|]. split; [exact Hi|].
  split; [exact Hc'|]. split; [exact HX | exact Hm].
Defined.

(** ** What the constructor records about the matrix *)

Lemma setitem_keeps_core h t k v h' a c :
  BoundRecArr_setitem h t k v = Ok h' → objs h !! a = Some c →
  ∃ c', objs h' !! a = Some c' ∧ storage_type c' = storage_type c ∧
        X c' = X c ∧ vis c' = vis c ∧ _meta c' = _meta c.
Proof.
  unfold BoundRecArr_setitem.
  destruct (get_table h t) as [b|]; simpl; [|done].
  destruct (parent_bool h (_parent b)) as [live|]; simpl; [|done].
  destruct (live && negb (dict_mem k (fields (arr b)))).
  - destruct (rec_len (arr b) <? length v)%nat; [done|].
    destruct (BoundRecArr_new _ _ _ _) as [new|]; simpl; [|done].
    destruct (_parent b) as [p|]; [|done].
    unfold AnnData_setattr.
    destruct (get_obj _ p) as [cp|] eqn:Hp; simpl; [|done].
    apply get_obj_Ok in Hp. simpl in Hp.
    intros [= <-] Ha. simpl.
    destruct (decide (a = p)) as [->|Hne].
    + rewrite Hp in Ha. injection Ha as ->.
      eexists. split; [apply list_lookup_insert_eq; by eapply lookup_lt_Some|].
      by destruct (if _name_col b =? SMP_NAMES then AxSmp else AxVar).
    + exists c. by rewrite list_lookup_insert_ne.
  - destruct (rec_setfield _ _ _); simpl; [|done].
    intros [= <-] Ha. by exists c.
Qed.

Lemma set_columns_keeps_core items :
  ∀ h self ax h' a c,
    set_columns h self ax items = Ok h' → objs h !! a = Some c →
    ∃ c', objs h' !! a = Some c' ∧ storage_type c' = storage_type c ∧
          X c' = X c ∧ vis c' = vis c ∧ _meta c' = _meta c.
Proof.
  induction items as [|[k v] items IH]; intros h self ax h' a c.
  - intros [= <-] Ha. by exists c.
  - cbn [set_columns]. destruct (get_obj h self) as [cs|]; simpl; [|done].
    destruct (BoundRecArr_setitem _ _ _ _) as [h1|] eqn:Hset; simpl; [|done].
    intros Hrest Ha.
    destruct (setitem_keeps_core _ _ _ _ _ _ _ Hset Ha)
      as (c1 & Hc1 & Hs1 & HX1 & Hv1 & Hm1).
    destruct (IH _ _ _ _ _ _ Hrest Hc1) as (c2 & Hc2 & Hs2 & HX2 & Hv2 & Hm2).
    exists c2. split; [done|]. by rewrite Hs2, HX2, Hv2, Hm2.
Qed.

Lemma init_items_keeps_core items :
  ∀ h self h' a c,
    init_items h self items = Ok h' → objs h !! a = Some c →
    ∃ c', objs h' !! a = Some c' ∧ storage_type c' = storage_type c ∧
          X c' = X c ∧ vis c' = vis c.
Proof.
  induction items as [|[key value] items IH]; intros h self h' a c.
  - intros [= <-] Ha. by exists c.
  - cbn [init_items].
    destruct (init_item h self key value) as [h1|] eqn:Hitem; simpl; [|done].
    intros Hrest Ha.
    assert (∃ c1, objs h1 !! a = Some c1 ∧ storage_type c1 = storage_type c ∧
                  X c1 = X c ∧ vis c1 = vis c)
      as (c1 & Hc1 & Hs1 & HX1 & Hv1).
    { unfold init_item in Hitem.
      destruct (negb (existsb _ _)).
      - destruct (get_obj h self) as [cs|] eqn:Hcs; simpl in Hitem; [|done].
        apply get_obj_Ok in Hcs. injection Hitem as <-. simpl.
        destruct (decide (a = self)) as [->|Hne].
        + rewrite Hcs in Ha. injection Ha as ->. eexists.
          split; [apply list_lookup_insert_eq; by eapply lookup_lt_Some|].
          done.
        + exists c. by rewrite list_lookup_insert_ne.
      - destruct value as [| | | | |m]; try done.
        destruct (set_columns_keeps_core _ _ _ _ _ _ _ Hitem Ha)
          as (c1 & ? & ? & ? & ? & ?).
        by exists c1. }
    destruct (IH _ _ _ _ _ Hrest Hc1) as (c2 & Hc2 & Hs2 & HX2 & Hv2).
    exists c2. split; [done|]. by rewrite Hs2, HX2, Hv2.
Qed.

(** X26.  What a successful construction records about its payload, in
    every case (with or without a legacy bundle, whatever annotations
    the bundle brings).  The payload is the bundle's ['X'] if there is
    one, and the argument [X] otherwise; it is an array; the container's
    matrix is that array, as a column if it was one-dimensional; the
    visualization mapping is the one given, or empty; and the recorded
    storage type is [Sparse] for a sparse matrix and [Array] for every
    other, also for a masked array: [Masked] is never recorded. *)
Theorem init_records_payload h ddata X0 smp0 var0 vis0 meta d' h' a :
  AnnData_init h ddata X0 smp0 var0 vis0 meta = (d', Ok (h', a)) →
  ∃ c a0,
    objs h' !! a = Some c ∧
    match ddata with
    | Some d => default X0 (dict_get "X" d)
    | None => X0
    end = OArray a0 ∧
    X c = match shape a0 with
          | [n] => {| kind := kind a0; dtype_names := dtype_names a0;
                      shape := [n; 1]; data := data a0 |}
          | _ => a0
          end ∧
    vis c = default [] vis0 ∧
    storage_type c = match kind a0 with Sparse => Sparse | _ => Array end ∧
    storage_type c ≠ Masked.
Proof.
  assert (∀ dd X1 smp1 var1,
            init_body h dd X1 smp1 var1 vis0 meta = Ok (h', a) →
            ∃ c a0, objs h' !! a = Some c ∧ X1 = OArray a0 ∧
              X c = match shape a0 with
                    | [n] => {| kind := kind a0; dtype_names := dtype_names a0;
                                shape := [n; 1]; data := data a0 |}
                    | _ => a0
                    end ∧
              vis c = default [] vis0 ∧
              storage_type c
              = match kind a0 with Sparse => Sparse | _ => Array end ∧
              storage_type c ≠ Masked) as Hbody.
  { intros dd X1 smp1 var1. unfold init_body.
    destruct X1 as [| | | |a0|]; try done.
    assert (List.find (isinstance_storage (kind a0)) [Array; Masked; Sparse]
            = Some (match kind a0 with Sparse => Sparse | _ => Array end))
      as -> by (by destruct (kind a0)).
    cbn [mbind result_bind].
    set (a1 := match shape a0 with [n] => _ | _ => a0 end).
    destruct (negb (dtype_names a1) && negb (length (shape a1) =? 2)%nat);
      [done|].
    destruct (shape a1) as [|nr [|nc [|? ?]]]; try done.
    destruct (BoundRecArr_new smp1 _ _ _) as [bs|]; simpl; [|done].
    destruct (BoundRecArr_new var1 _ _ _) as [bv|]; simpl; [|done].
    destruct (_check_dimensions a1 (arr bs) (arr bv)) as [[]|];
      simpl; [|done].
    match goal with
    | |- context [alloc_obj ?hh ?cc] =>
        assert (objs (alloc_obj hh cc) !! length (objs h) = Some cc) as Hc0
          by (simpl; by apply list_lookup_middle)
    end.
    destruct dd as [d|]; simpl.
    - destruct (init_items _ _ d) as [h4|] eqn:Hit; simpl; [|done].
      intros [= <- <-].
      destruct (init_items_keeps_core _ _ _ _ _ _ Hit Hc0)
        as (c' & Hc' & Hs & HX & Hv).
      exists c', a0. split; [done|]. split; [done|].
      rewrite Hs, HX, Hv. simpl. repeat split; by destruct (kind a0).
    - intros [= <- <-]. eexists _, a0. split; [exact Hc0|].
      simpl. repeat split; by destruct (kind a0). }
  unfold AnnData_init. destruct ddata as [d|].
  - assert ((init_legacy d X0 smp0 var0).1.1.2
            = default X0 (dict_get "X" d)) as HX.
    { unfold init_legacy. destruct (dict_get "X" d); simpl;
        (destruct (dict_get "row_names" _); simpl;
         [|destruct (dict_get "smp_names" _); simpl]);
        (destruct (dict_get "col_names" _); simpl;
         [|destruct (dict_get "var_names" _); simpl]); reflexivity. }
    destruct (init_legacy d X0 smp0 var0) as [[[d1 X1] smp1] var1].
    simpl in HX. subst X1. intros [= _ H]. by eapply Hbody.
  - intros [= _ H]. by eapply Hbody.
Qed.

Lemma init_records_payload_witness :
  ∃ h' c,
    AnnData_init empty_heap None
      (OArray {| kind := Masked; dtype_names := false; shape := [2; 2];
                 data := [1; 2; 3; 4]%Z |}) SrcNone SrcNone None []
    = (None, Ok (h', 0)) ∧
    objs h' !! 0 = Some c ∧ storage_type c = Array.
Proof.
  destruct (init_records_payload empty_heap None
              (OArray {| kind := Masked; dtype_names := false;
                         shape := [2; 2]; data := [1; 2; 3; 4]%Z |})
              SrcNone SrcNone None [] None
              (heap_of (AnnData_init empty_heap None
                          (OArray {| kind := Masked; dtype_names := false;
                                     shape := [2; 2];
                                     data := [1; 2; 3; 4]%Z |})
                          SrcNone SrcNone None [])) 0 eq_refl)
    as (c & a0 & Hc & Ha0 & _ & _ & Hs & _).
  injection Ha0 as <-. eexists _, c. split; [reflexivity|].
  split; [exact Hc | exact Hs].
Defined.

(** ** Reading the dataset metadata *)

(** X27.  The three ways to read the dataset metadata agree, and none of
    them changes anything.  For a key that is in the container, string
    indexing and [get] return the same value, whatever default [get] is
    given; for a key that is not, string indexing raises [KeyError] with
    that key, where [get] returns its default. *)
Theorem meta_lookup_agrees h self c key dflt :
  objs h !! self = Some c →
  (AnnData_contains c key = true →
   AnnData_getitem h self (IOne (IName key))
   = (h, Ok (ItemMeta (AnnData_get c key dflt)))) ∧
  (AnnData_contains c key = false →
   AnnData_getitem h self (IOne (IName key)) = (h, Raise (KeyError key)) ∧
   AnnData_get c key dflt = dflt).
Proof.
  intros Hc. unfold AnnData_contains, AnnData_getitem, AnnData_get, dict_mem.
  rewrite (get_obj_Some _ _ _ Hc).
  destruct (dict_get key (_meta c)); split; done.
Qed.

Lemma meta_lookup_agrees_witness :
  AnnData_getitem test_legacy 0 (IOne (IName "missing"))
  = (test_legacy, Raise (KeyError "missing")) ∧
  AnnData_get {| storage_type := Array; X := test_matrix; smp := 2; var := 1;
                 vis := []; _meta := [("k", OInt 1)] |} "missing" ONone
  = ONone.
Proof.
  apply (proj2 (meta_lookup_agrees test_legacy 0
                  {| storage_type := Array; X := test_matrix; smp := 2;
                     var := 1; vis := []; _meta := [("k", OInt 1)] |}
                  "missing" ONone eq_refl)).
  reflexivity.
Defined.
